(** * deepks-kit: the iterate entry point and the trainer

    A shallow embedding of [deepqc/iterate/main.py] and
    [deepqc/train/train.py].  Python exceptions are values of [result];
    calls into code that lives outside the two files (the workflow built
    by [make_iterate], torch, numpy, the data reader) are parameters of a
    Section; IEEE doubles are idealised as real numbers. *)

From Stdlib Require Import List String ZArith Reals Bool Lia Lra.
Import ListNotations.

Set Implicit Arguments.
Set Maximal Implicit Insertion.

(** ** Exceptions and results *)

(** The Python exceptions that the two files can raise or let through.
    [OutOfModel] is not a Python exception: it marks the one place where a
    value leaves the real numbers (a negative base raised to a fractional
    power is a complex number in Python 3) and the embedding stops. *)
Inductive exn : Type :=
| ZeroDivisionError
| ValueError
| FileNotFoundError
| OtherError (msg : string)
| OutOfModel.

Inductive result (A : Type) : Type :=
| Ok (a : A)
| Raise (e : exn).

Arguments Ok {A} a.
Arguments Raise {A} e.

(** ** The result monad and the state-and-exception monad

    [result] threads exceptions through pure computations; [M S] adds a
    state of type [S].  A raised exception keeps the state reached so far
    and skips the rest of the computation, as a Python exception leaves
    every effect performed before it in place. *)

Definition rbind {A B : Type} (r : result A) (k : A -> result B) : result B :=
  match r with
  | Ok a => k a
  | Raise e => Raise e
  end.

Fixpoint map_result {A B : Type} (f : A -> result B) (l : list A)
  : result (list B) :=
  match l with
  | [] => Ok []
  | x :: xs =>
      rbind (f x) (fun y => rbind (map_result f xs) (fun ys => Ok (y :: ys)))
  end.

Definition M (S A : Type) : Type := S -> result A * S.

Definition ret {S A : Type} (a : A) : M S A := fun s => (Ok a, s).

Definition bind {S A B : Type} (m : M S A) (k : A -> M S B) : M S B :=
  fun s =>
    match m s with
    | (Ok a, s') => k a s'
    | (Raise e, s') => (Raise e, s')
    end.

Definition lift {S A : Type} (r : result A) : M S A := fun s => (r, s).

Fixpoint map_m {S A B : Type} (f : A -> M S B) (l : list A) : M S (list B) :=
  match l with
  | [] => ret []
  | x :: xs =>
      bind (f x) (fun y => bind (map_m f xs) (fun ys => ret (y :: ys)))
  end.

Fixpoint for_each {S A : Type} (l : list A) (body : A -> M S unit)
  : M S unit :=
  match l with
  | [] => ret tt
  | x :: xs => bind (body x) (fun _ => for_each xs body)
  end.

Declare Scope monad_scope.
Delimit Scope monad_scope with monad.

Notation "x <- m ;; k" := (bind m (fun x => k))
  (at level 61, m at next level, right associativity) : monad_scope.
Notation "m ;; k" := (bind m (fun _ => k))
  (at level 61, right associativity) : monad_scope.
Notation "x <-? r ;; k" := (rbind r (fun x => k))
  (at level 61, r at next level, right associativity) : monad_scope.

(** Python's [range(lo, hi)] over integers. *)
Definition py_range (lo hi : Z) : list Z :=
  map (fun i => (lo + Z.of_nat i)%Z) (seq 0 (Z.to_nat (hi - lo))).

(** [l] counts up from [from] in steps of one. *)
Fixpoint consecutive (from : Z) (l : list Z) : Prop :=
  match l with
  | [] => True
  | e :: l' => e = from /\ consecutive (from + 1) l'
  end.

(** Python's [a // b] and [a % b] on integers: floor division, the sign
    of the remainder follows the divisor, a zero divisor raises. *)
Definition py_floordiv (a b : Z) : result Z :=
  if (b =? 0)%Z then Raise ZeroDivisionError else Ok (a / b)%Z.

Definition py_mod (a b : Z) : result Z :=
  if (b =? 0)%Z then Raise ZeroDivisionError else Ok (a mod b)%Z.

(** ** deepqc/iterate/main.py *)

Module Iterate.

Section Main.

(** The arguments of [make_iterate], the workflow object it returns and
    the outside world (file system, job queue) it acts on. *)
Variable Config : Type.
Variable Workflow : Type.
Variable World : Type.

(** [iterate.record_file] and [os.path.exists]. *)
Variable record_file : Workflow -> string.
Variable path_exists : World -> string -> bool.

(** [deepqc.iterate.iterate.make_iterate] and the two methods of the
    workflow; each may raise and may change the world. *)
Variable make_iterate : Config -> World -> result Workflow * World.
Variable wf_run : Workflow -> World -> result unit * World.
Variable wf_restart : Workflow -> World -> result unit * World.

(** The calls [main] makes, in order. *)
Inductive call : Type :=
| CallMakeIterate (cfg : Config)
| CallPathExists (path : string)
| CallRestart (w : Workflow)
| CallRun (w : Workflow).

Record machine : Type := Machine { world : World; calls : list call }.

Definition boot (w : World) : machine := Machine w [].

(** A call into code outside the file: it acts on the world and is
    appended to the list of calls, whether it returns or raises. *)
Definition external {A : Type} (c : call)
           (f : World -> result A * World) : M machine A :=
  fun s =>
    let (r, w) := f (world s) in
    (r, Machine w (calls s ++ [c])).

Definition main (cfg : Config) : M machine unit :=
  (iterate <- external (CallMakeIterate cfg) (make_iterate cfg) ;;
   found <- external (CallPathExists (record_file iterate))
                     (fun w => (Ok (path_exists w (record_file iterate)), w)) ;;
   if found
   then external (CallRestart iterate) (wf_restart iterate)
   else external (CallRun iterate) (wf_run iterate))%monad.

Definition is_restart (c : call) : bool :=
  match c with CallRestart _ => true | _ => false end.

Definition is_run (c : call) : bool :=
  match c with CallRun _ => true | _ => false end.

Definition is_path_exists (c : call) : bool :=
  match c with CallPathExists _ => true | _ => false end.

Definition count (p : call -> bool) (l : list call) : nat :=
  List.length (filter p l).

End Main.

Arguments boot {Config Workflow World} w.
Arguments CallMakeIterate {Config Workflow} cfg.
Arguments CallPathExists {Config Workflow} path.
Arguments CallRestart {Config Workflow} w.
Arguments CallRun {Config Workflow} w.

End Iterate.

(** ** deepqc/train/train.py *)

Module Train.

Open Scope R_scope.

(** *** Python arithmetic on floats, over the reals *)

(** [a / b] on floats: a zero divisor raises. *)
Definition py_truediv (a b : R) : result R :=
  if Req_dec_T b 0 then Raise ZeroDivisionError else Ok (a / b).

(** Whether a real is an integer. *)
Definition is_integral (y : R) : bool :=
  if Req_dec_T (frac_part y) 0 then true else false.

(** [x ** y] on floats.  A positive base has the real power; a zero base
    raises on a negative exponent; a negative base has a real power only
    for an integral exponent, and a complex one otherwise. *)
Definition py_pow (x y : R) : result R :=
  if Rlt_dec 0 x then Ok (Rpower x y)
  else if Req_dec_T x 0 then
    if Rlt_dec y 0 then Raise ZeroDivisionError
    else if Req_dec_T y 0 then Ok 1 else Ok 0
  else if is_integral y then Ok (powerRZ x (Int_part y))
  else Raise OutOfModel.

(** Truth value of a number: [if x:] holds unless [x] is zero. *)
Definition truthy (x : R) : bool :=
  if Req_dec_T x 0 then false else true.

(** [force_factor > 0]. *)
Definition positive (x : R) : bool :=
  if Rlt_dec 0 x then true else false.

(** Truth value of a string: [if ckpt_file:] holds unless it is empty. *)
Definition nonempty (s : string) : bool :=
  match s with EmptyString => false | String _ _ => true end.

(** numpy arrays of statistics, [np.sqrt], [ndarray.clip(lo)], [np.mean].
    Where numpy yields [nan] (the root of a negative number, the mean of
    no number) the real functions yield some real number. *)
Definition Array : Type := list R.

Definition np_sqrt (a : Array) : Array := map sqrt a.

Definition np_clip (a : Array) (lo : R) : Array := map (Rmax lo) a.

Definition np_mean (l : list R) : R :=
  fold_right Rplus 0 l / INR (List.length l).

(** *** The model *)

Section Trainer.

(** torch tensors and the trainable parameters of the network. *)
Variable Tensor : Type.
Variable Params : Type.

(** Modelled from the spec: the model class is not among the two files.
    A model holds its parameters, its input normalization and its prefit
    linear layer. *)
Record model : Type := Model {
  params : Params;
  input_shift : Array;
  input_scale : Array;
  prefit_weight : Array;
  prefit_bias : Array;
  prefit_trainable : bool
}.

(** Modelled from the spec: [model.set_normalization(shift, scale)] of the
    missing model class stores the input normalization. *)
Definition set_normalization (shift scale : Array) (m : model) : model :=
  Model (params m) shift scale
        (prefit_weight m) (prefit_bias m) (prefit_trainable m).

(** Modelled from the spec: [model.set_prefitting(weight, bias, trainable)]
    of the missing model class stores the prefit linear layer. *)
Definition set_prefitting (weight bias : Array) (trainable : bool) (m : model)
  : model :=
  Model (params m) (input_shift m) (input_scale m) weight bias trainable.

(** A sample is the list of tensors the reader yields:
    [e_label, eig] and, with force data, [f_label, gvx]. *)
Definition sample : Type := list Tensor.

(** The data reader, outside the two files: iterating it yields the
    training batches of one epoch; its methods are read as functions of
    their arguments. *)
Record reader : Type := Reader {
  batches : list sample;
  sample_all_batch : list sample;
  compute_data_stat : Array * Array;
  compute_prefitting : Array -> Array -> R -> Array * Array
}.

(** torch: the forward pass [model(eig)], [torch.autograd.grad] of the
    summed output of a function at a point ([grad_outputs] all ones),
    [torch.einsum] with its subscripts, unary minus, [nn.MSELoss()]. *)
Variable forward : model -> Tensor -> Tensor.
Variable autograd_grad : (Tensor -> Tensor) -> Tensor -> Tensor.
Variable einsum : string -> Tensor -> Tensor -> Tensor.
Variable tneg : Tensor -> Tensor.
Variable mse_loss : Tensor -> Tensor -> R.

(** torch.optim: the Adam optimizer as built from the model and from a
    learning rate and a weight decay that are not negative; one
    [loss.backward(); optimizer.step()] under the current learning rate,
    for the loss as a function of the model. *)
Variable Optimizer : Type.
Variable adam : model -> R -> R -> Optimizer.
Variable optimizer_step :
  Optimizer -> R -> (model -> result R) -> model -> model * Optimizer.

(** [time()]: the successive readings of the wall clock. *)
Variable clock : nat -> R.

(** [calc_force(ene, eig, gvx)], with [ene] the value at [eig] of the
    function [energy]. *)
Definition calc_force (energy : Tensor -> Tensor) (eig gvx : Tensor) : Tensor :=
  let gev := autograd_grad energy eig in
  (* minus sign as force = - grad_x E *)
  tneg (einsum "...bxap,...ap->...bx" gvx gev).

(** [make_evaluator(force_factor, loss_fn, device)]: the closure
    [evaluator(model, sample)].  Moving tensors to the device does not
    change their values. *)
Definition make_evaluator (force_factor : R) (loss_fn : Tensor -> Tensor -> R)
  : model -> sample -> result R :=
  fun m smp =>
    match smp with
    | e_label :: eig :: force_sample =>
        let e_pred := forward m eig in
        let loss := loss_fn e_pred e_label in
        if positive force_factor then
          match force_sample with
          | [f_label; gvx] =>
              let f_pred := calc_force (forward m) eig gvx in
              Ok (loss + force_factor * loss_fn f_pred f_label)
          | _ => Raise ValueError
          end
        else Ok loss
    | _ => Raise ValueError
    end.

(** The keyword arguments of [preprocess] and their defaults. *)
Record preprocess_args : Type := PreprocessArgs {
  preshift : bool;
  prescale : bool;
  prescale_sqrt : bool;
  prescale_clip : R;
  prefit : bool;
  prefit_ridge : R;
  prefit_trainable_arg : bool
}.

Definition default_preprocess_args : preprocess_args :=
  PreprocessArgs true false false 0 true 1 false.

(** [preprocess(model, g_reader, ...)]: the model is updated in place;
    the embedding returns its new state. *)
Definition preprocess (m : model) (g_reader : reader) (a : preprocess_args)
  : model :=
  let shift := input_shift m in
  let scale := input_scale m in
  let '(m1, shift, scale) :=
    if preshift a || prescale a then
      let '(davg, dstd) := compute_data_stat g_reader in
      let shift := if preshift a then davg else shift in
      let scale :=
        if prescale a then
          let scale := dstd in
          let scale := if prescale_sqrt a then np_sqrt scale else scale in
          if truthy (prescale_clip a) then np_clip scale (prescale_clip a)
          else scale
        else scale in
      (set_normalization shift scale m, shift, scale)
    else (m, shift, scale) in
  if prefit a then
    let '(weight, bias) :=
      compute_prefitting g_reader shift scale (prefit_ridge a) in
    set_prefitting weight bias (prefit_trainable_arg a) m1
  else m1.

(** *** The training loop *)

(** What [train] prints and saves.  The last two constructors are not
    output: they record that [np.mean(loss_list)] and the pass over the
    test reader were evaluated. *)
Inductive event : Type :=
| PrintDevice
| PrintResetDecay (decay_rate stop_lr : R)
| PrintHeader
| PrintRow (epoch : Z) (trn_err tst_err lr trn_time tst_time : R)
| SaveModel (ckpt_file : string) (m : model)
| OptimizerStep (loss : R)
| SchedulerStep
| MeanTrainLoss (trn_loss : R)
| TestLoss (tst_loss : R).

(** The objects [train] works on: the model, the optimizer and its
    current learning rate, the epoch counter of the scheduler, the number
    of clock readings so far, the loop variable [epoch] (0 before the
    loop) and the events so far, each with the epoch it happened in. *)
Record state : Type := State {
  net : model;
  opt : Optimizer;
  lr : R;
  last_epoch : Z;
  ticks : nat;
  epoch : Z;
  log : list (Z * event)
}.

Definition emit (ev : event) : M state unit :=
  fun s =>
    (Ok tt, State (net s) (opt s) (lr s) (last_epoch s) (ticks s) (epoch s)
                  (log s ++ [(epoch s, ev)])).

Definition set_epoch (e : Z) : M state unit :=
  fun s =>
    (Ok tt, State (net s) (opt s) (lr s) (last_epoch s) (ticks s) e (log s)).

Definition now : M state R :=
  fun s =>
    (Ok (clock (ticks s)),
     State (net s) (opt s) (lr s) (last_epoch s) (S (ticks s)) (epoch s)
           (log s)).

Definition get_last_lr : M state R := fun s => (Ok (lr s), s).

(** [evaluator(model, sample).item()] on the current model. *)
Definition evaluate (evaluator : model -> sample -> result R) (smp : sample)
  : M state R :=
  fun s => (evaluator (net s) smp, s).

(** [[evaluator(model, batch).item() for batch in batches]]. *)
Definition evaluate_all (evaluator : model -> sample -> result R)
           (l : list sample) : M state (list R) :=
  fun s => (map_result (evaluator (net s)) l, s).

(** [optimizer.zero_grad(); loss.backward(); optimizer.step()]. *)
Definition backward_and_step (evaluator : model -> sample -> result R)
           (smp : sample) (loss : R) : M state unit :=
  fun s =>
    let (m', o') :=
      optimizer_step (opt s) (lr s) (fun m => evaluator m smp) (net s) in
    (Ok tt, State m' o' (lr s) (last_epoch s) (ticks s) (epoch s)
                  (log s ++ [(epoch s, OptimizerStep loss)])).

(** [scheduler.step()] of torch's [StepLR(optimizer, step_size, gamma)]:
    the epoch counter advances, and the learning rate is multiplied by
    [gamma] when the counter is a multiple of [step_size]; with a zero
    [step_size] the modulo raises after the counter has advanced. *)
Definition scheduler_step (step_size : Z) (gamma : R) : M state unit :=
  fun s =>
    let n := (last_epoch s + 1)%Z in
    match py_mod n step_size with
    | Raise e =>
        (Raise e, State (net s) (opt s) (lr s) n (ticks s) (epoch s) (log s))
    | Ok r =>
        let lr' := if (r =? 0)%Z then lr s * gamma else lr s in
        (Ok tt, State (net s) (opt s) lr' n (ticks s) (epoch s)
                      (log s ++ [(epoch s, SchedulerStep)]))
    end.

(** [model.save(ckpt_file)]. *)
Definition save (ckpt_file : string) : M state unit :=
  fun s =>
    (Ok tt, State (net s) (opt s) (lr s) (last_epoch s) (ticks s) (epoch s)
                  (log s ++ [(epoch s, SaveModel ckpt_file (net s))])).

(** The keyword arguments of [train] and their defaults. *)
Record train_args : Type := TrainArgs {
  n_epoch : Z;
  test_reader : option reader;
  force_factor : R;
  start_lr : R;
  decay_steps : Z;
  decay_rate : R;
  stop_lr : option R;
  weight_decay : R;
  display_epoch : Z;
  ckpt_file : string
}.

Definition default_train_args : train_args :=
  TrainArgs 1000 None 0 0.001 100 0.96 None 0 100 "model.pth".

(** torch's [optim.Adam(params, lr=lr, weight_decay=wd)] on the
    parameters of a model that has some: a negative learning rate or
    weight decay is a [ValueError]; otherwise it returns the optimizer. *)
Definition optim_adam (m : model) (lr wd : R) : result Optimizer :=
  if Rlt_dec lr 0 then Raise ValueError
  else if Rlt_dec wd 0 then Raise ValueError
  else Ok (adam m lr wd).

(** [optimizer = optim.Adam(model.parameters(), lr=start_lr,
    weight_decay=weight_decay)]. *)
Definition build_optimizer (a : train_args) : M state unit :=
  fun s =>
    match optim_adam (net s) (start_lr a) (weight_decay a) with
    | Raise e => (Raise e, s)
    | Ok o =>
        (Ok tt, State (net s) o (start_lr a) (last_epoch s) (ticks s)
                      (epoch s) (log s))
    end.

(** The right-hand side of the assignment to [decay_rate] under
    [if stop_lr is not None], operands evaluated left to right.  The
    floats are real numbers here: a quotient or a power that rounds to
    zero or overflows in the code does not in this function. *)
Definition back_solve_decay_rate (stop start : R) (n_epoch decay_steps : Z)
  : result R :=
  (ratio <-? py_truediv stop start ;;
   k <-? py_floordiv n_epoch decay_steps ;;
   inv <-? py_truediv 1 (IZR k) ;;
   py_pow ratio inv)%monad.

(** The decay rate handed to the scheduler. *)
Definition resolve_decay_rate (a : train_args) : M state R :=
  match stop_lr a with
  | None => ret (decay_rate a)
  | Some stop =>
      (rate <- lift (back_solve_decay_rate stop (start_lr a)
                                           (n_epoch a) (decay_steps a)) ;;
       emit (PrintResetDecay rate stop) ;;
       ret rate)%monad
  end.

(** The body of [for sample in g_reader]. *)
Definition train_step (evaluator : model -> sample -> result R)
           (smp : sample) : M state R :=
  (loss <- evaluate evaluator smp ;;
   backward_and_step evaluator smp loss ;;
   ret loss)%monad.

(** The body of [if epoch % display_epoch == 0]. *)
Definition display (evaluator : model -> sample -> result R)
           (tst_reader : reader) (ckpt : string) (e : Z)
           (loss_list : list R) (tic : R) : M state unit :=
  (let trn_loss := np_mean loss_list in
   emit (MeanTrainLoss trn_loss) ;;
   toc <- now ;;
   let trn_time := toc - tic in
   tic <- now ;;
   tst_list <- evaluate_all evaluator (sample_all_batch tst_reader) ;;
   let tst_loss := np_mean tst_list in
   emit (TestLoss tst_loss) ;;
   toc <- now ;;
   let tst_time := toc - tic in
   last_lr <- get_last_lr ;;
   emit (PrintRow e (sqrt trn_loss) (sqrt tst_loss) last_lr
                  trn_time tst_time) ;;
   if nonempty ckpt then save ckpt else ret tt)%monad.

(** The body of [for epoch in range(1, n_epoch+1)]. *)
Definition train_epoch (evaluator : model -> sample -> result R)
           (g_reader tst_reader : reader) (step_size : Z) (gamma : R)
           (display_every : Z) (ckpt : string) (e : Z) : M state unit :=
  (set_epoch e ;;
   tic <- now ;;
   loss_list <- map_m (train_step evaluator) (batches g_reader) ;;
   scheduler_step step_size gamma ;;
   r <- lift (py_mod e display_every) ;;
   if (r =? 0)%Z
   then display evaluator tst_reader ckpt e loss_list tic
   else ret tt)%monad.

(** The body of [train].  The function has no [return] statement: it
    ends by returning [None]. *)
Definition train_body (g_reader : reader) (a : train_args)
  : M state (option model) :=
  ((* model = model.to(device) *)
   emit PrintDevice ;;
   let tst_reader :=
     match test_reader a with
     | None => g_reader
     | Some r => r
     end in
   build_optimizer a ;;
   gamma <- resolve_decay_rate a ;;
   let evaluator := make_evaluator (force_factor a) mse_loss in
   emit PrintHeader ;;
   tic <- now ;;
   trn_list <- evaluate_all evaluator (sample_all_batch g_reader) ;;
   let trn_loss := np_mean trn_list in
   tst_list <- evaluate_all evaluator (sample_all_batch tst_reader) ;;
   let tst_loss := np_mean tst_list in
   toc <- now ;;
   let tst_time := toc - tic in
   emit (PrintRow 0 (sqrt trn_loss) (sqrt tst_loss) (start_lr a) 0 tst_time) ;;
   for_each (py_range 1 (n_epoch a + 1))
            (train_epoch evaluator g_reader tst_reader
                         (decay_steps a) gamma
                         (display_epoch a) (ckpt_file a)) ;;
   ret None)%monad.

(** The state [train] starts from: nothing has been printed yet.  The
    optimizer and its learning rate are not built yet: the two fields
    are read only after [build_optimizer] has set them. *)
Definition initial_state (m : model) (a : train_args) : state :=
  State m (adam m (start_lr a) (weight_decay a)) (start_lr a) 0 0 0 [].

(** [train(model, g_reader, ...)]: the value returned (or the exception
    raised) and the final state. *)
Definition train (m : model) (g_reader : reader) (a : train_args)
  : result (option model) * state :=
  train_body g_reader a (initial_state m a).

(** The epochs at which a row was printed, a checkpoint was saved, the
    mean train loss was taken and the test loss was evaluated. *)
Definition is_row (ev : event) : bool :=
  match ev with PrintRow _ _ _ _ _ _ => true | _ => false end.

Definition is_save (ev : event) : bool :=
  match ev with SaveModel _ _ => true | _ => false end.

Definition is_mean_train (ev : event) : bool :=
  match ev with MeanTrainLoss _ => true | _ => false end.

Definition is_test_loss (ev : event) : bool :=
  match ev with TestLoss _ => true | _ => false end.

Definition is_training (ev : event) : bool :=
  match ev with OptimizerStep _ | SchedulerStep => true | _ => false end.

Definition epochs_of (p : event -> bool) (l : list (Z * event)) : list Z :=
  map fst (filter (fun x => p (snd x)) l).

(** The four things done at a display epoch. *)
Inductive display_kind : Type := KMeanTrain | KTestLoss | KRow | KSave.

Definition of_kind (k : display_kind) : event -> bool :=
  match k with
  | KMeanTrain => is_mean_train
  | KTestLoss => is_test_loss
  | KRow => is_row
  | KSave => is_save
  end.

(** [epoch % display_epoch == 0] evaluates to true. *)
Definition due (display_every e : Z) : bool :=
  match py_mod e display_every with
  | Ok r => (r =? 0)%Z
  | Raise _ => false
  end.

(** Whether epoch [e] does the thing of kind [k]: the checkpoint also
    needs a file name. *)
Definition fires (display_every : Z) (ckpt : string) (k : display_kind) (e : Z)
  : bool :=
  due display_every e &&
  match k with KSave => nonempty ckpt | _ => true end.

(** The learning rate of [StepLR] after [k] steps, in closed form. *)
Definition step_lr (start gamma : R) (step_size k : Z) : R :=
  start * gamma ^ Z.to_nat (k / step_size).

(** The decay rate [train] hands to the scheduler, when there is one. *)
Definition resolved_rate (a : train_args) (gamma : R) : Prop :=
  match stop_lr a with
  | None => gamma = decay_rate a
  | Some stop =>
      back_solve_decay_rate stop (start_lr a) (n_epoch a) (decay_steps a)
      = Ok gamma
  end.

(** A row carries the number of the epoch it is printed in, and a
    checkpoint goes to the file [ckpt]. *)
Definition well_stamped (ckpt : string) (x : Z * event) : Prop :=
  match snd x with
  | PrintRow e _ _ _ _ _ => e = fst x
  | SaveModel f _ => f = ckpt
  | _ => True
  end.

(** A test loss, and the test error of a row, comes from the evaluator
    on all the batches of the reader [tst], under some state of the
    model. *)
Definition reported_on (evaluator : model -> sample -> result R)
           (tst : reader) (x : Z * event) : Prop :=
  match snd x with
  | TestLoss v =>
      exists m l,
        map_result (evaluator m) (sample_all_batch tst) = Ok l /\
        v = np_mean l
  | PrintRow _ _ tst_err _ _ _ =>
      exists m l,
        map_result (evaluator m) (sample_all_batch tst) = Ok l /\
        tst_err = sqrt (np_mean l)
  | _ => True
  end.

Definition event_ok (evaluator : model -> sample -> result R)
           (tst : reader) (ckpt : string) (x : Z * event) : Prop :=
  well_stamped ckpt x /\ reported_on evaluator tst x.

(** What [train] has printed when it enters the loop, and the state it
    enters the loop in: [gamma] is the decay rate, [trn] and [tst] are the
    losses of the model on all the batches of the two readers. *)
Definition prelude_log (a : train_args) (gamma : R) (trn tst : list R)
  : list (Z * event) :=
  (0%Z, PrintDevice) ::
  match stop_lr a with
  | Some stop => [(0%Z, PrintResetDecay gamma stop)]
  | None => []
  end ++
  [(0%Z, PrintHeader);
   (0%Z, PrintRow 0 (sqrt (np_mean trn)) (sqrt (np_mean tst)) (start_lr a)
                  0 (clock 1 - clock 0))].

Definition loop_entry (m : model) (a : train_args) (gamma : R)
           (trn tst : list R) : state :=
  State m (adam m (start_lr a) (weight_decay a)) (start_lr a) 0 2 0
        (prelude_log a gamma trn tst).

(** The steps of the optimizer and of the scheduler among the events. *)
Definition is_optimizer_step (ev : event) : bool :=
  match ev with OptimizerStep _ => true | _ => false end.

Definition is_scheduler_step (ev : event) : bool :=
  match ev with SchedulerStep => true | _ => false end.

Definition count_events (p : event -> bool) (l : list (Z * event)) : nat :=
  List.length (filter (fun x => p (snd x)) l).

(** A row prints the learning rate that [StepLR] has reached at its
    epoch. *)
Definition row_lr_ok (start gamma : R) (step_size : Z) (x : Z * event)
  : Prop :=
  match snd x with
  | PrintRow e _ _ lr _ _ => lr = step_lr start gamma step_size e
  | _ => True
  end.

(** The row of epoch 0 prints the same train and test error. *)
Definition first_row_same (x : Z * event) : Prop :=
  match snd x with
  | PrintRow e trn_err tst_err _ _ _ => e = 0%Z -> trn_err = tst_err
  | _ => True
  end.

(** A line printed before the first row. *)
Definition is_heading (ev : event) : bool :=
  match ev with
  | PrintDevice | PrintResetDecay _ _ | PrintHeader => true
  | _ => false
  end.

(** A sample the evaluator can unpack. *)
Definition sample_ok (force_factor : R) (smp : sample) : bool :=
  match smp with
  | _ :: _ :: force_sample =>
      if positive force_factor
      then (List.length force_sample =? 2)%nat
      else true
  | _ => false
  end.

End Trainer.

Arguments PrintDevice {Params}.
Arguments PrintResetDecay {Params} decay_rate stop_lr.
Arguments PrintHeader {Params}.
Arguments PrintRow {Params} epoch trn_err tst_err lr trn_time tst_time.
Arguments OptimizerStep {Params} loss.
Arguments SchedulerStep {Params}.
Arguments MeanTrainLoss {Params} trn_loss.
Arguments TestLoss {Params} tst_loss.
Arguments prelude_log {Tensor Params} clock a gamma trn tst.

End Train.

(** ** Concrete instances

    Small instances of the parameters, on which the definitions run. *)

Module IterateExample.

(** The world is the list of paths that exist; a configuration is a
    working directory; a workflow is known by its record file.  Building
    the workflow needs the share folder; a fresh run writes the record. *)
Definition world : Type := list string.

Definition path_exists (w : world) (p : string) : bool :=
  existsb (String.eqb p) w.

Definition record_file (wf : string) : string := wf.

Definition make_iterate (workdir : string) (w : world)
  : result string * world :=
  if path_exists w (workdir ++ "/share")
  then (Ok (workdir ++ "/RECORD")%string, w)
  else (Raise FileNotFoundError, w).

Definition wf_run (wf : string) (w : world) : result unit * world :=
  (Ok tt, w ++ [wf]).

Definition wf_restart (wf : string) (w : world) : result unit * world :=
  (Ok tt, w).

Definition main : string -> M (Iterate.machine string string world) unit :=
  Iterate.main record_file path_exists make_iterate wf_run wf_restart.

End IterateExample.

Module TrainExample.

Import Train.
Open Scope R_scope.

(** Tensors and parameters are single reals; the network multiplies its
    input by its parameter; the optimizer lowers the parameter by the
    learning rate; the clock ticks once a reading. *)
Definition model : Type := Train.model R.

Definition forward (m : model) (x : R) : R := params m * x.

Definition autograd_grad (f : R -> R) (x : R) : R := f 1 - f 0.

Definition einsum (subscripts : string) (a b : R) : R := a * b.

Definition mse_loss (a b : R) : R := (a - b) * (a - b).

Definition adam (m : model) (lr wd : R) : unit := tt.

Definition optimizer_step (o : unit) (lr : R) (loss : model -> result R)
           (m : model) : model * unit :=
  (Model (params m - lr) (input_shift m) (input_scale m)
         (prefit_weight m) (prefit_bias m) (prefit_trainable m), o).

Definition clock (n : nat) : R := INR n.

Definition model0 : model := Model 1 [0] [1] [0] [0] false.

(** A reader with one batch of one energy and one descriptor. *)
Definition reader0 : reader R :=
  Reader [[2; 1]] [[2; 1]] ([3], [4]) (fun shift scale ridge => (shift, scale)).

Definition make_evaluator : R -> (R -> R -> R) -> model -> list R -> result R :=
  Train.make_evaluator forward autograd_grad einsum Ropp.

Definition train : model -> reader R -> train_args R
                   -> result (option model) * state R unit :=
  Train.train forward autograd_grad einsum Ropp mse_loss
              adam optimizer_step clock.

(** Two epochs, a row and a checkpoint after each. *)
Definition args2 : train_args R :=
  TrainArgs 2 None 0 0.001 100 0.96 None 0 1 "model.pth".

(** A target rate with fewer epochs than one decay period. *)
Definition args_short : train_args R :=
  TrainArgs 50 None 0 0.001 100 0.96 (Some 0.0001) 0 100 "model.pth".

(** A target rate with a negative number of epochs. *)
Definition args_negative : train_args R :=
  TrainArgs (-1) None 0 0.001 100 0.96 (Some 0.0001) 0 100 "model.pth".

(** Two epochs, rows and checkpoints due every third. *)
Definition args_quiet : train_args R :=
  TrainArgs 2 None 0 0.001 100 0.96 None 0 3 "model.pth".

(** Two epochs of one decay period each, from rate 1 to the target 1/4. *)
Definition args_target : train_args R :=
  TrainArgs 2 None 0 1 1 0.96 (Some (1 / 4)) 0 1 "model.pth".

(** No epoch at all. *)
Definition args_none : train_args R :=
  TrainArgs 0 None 0 0.001 100 0.96 None 0 100 "model.pth".

(** Two epochs and a display period of zero. *)
Definition args_display_zero : train_args R :=
  TrainArgs 2 None 0 0.001 100 0.96 None 0 0 "model.pth".

(** Force matching switched on. *)
Definition args_force : train_args R :=
  TrainArgs 2 None 1 0.001 100 0.96 None 0 1 "model.pth".

(** A negative weight decay. *)
Definition args_negative_decay : train_args R :=
  TrainArgs 2 None 0 0.001 100 0.96 None (-0.01) 1 "model.pth".

(** Preprocessing with the scale taken from the data, square root and a
    lower bound of one, and with everything switched off. *)
Definition preprocess_clipped : preprocess_args :=
  PreprocessArgs true true true 1 true 1 false.

Definition preprocess_off : preprocess_args :=
  PreprocessArgs false false false 0 false 1 false.

(** A second reader with the statistics of [reader0]. *)
Definition reader0' : reader R :=
  Reader [] [] ([3], [4]) (fun shift scale ridge => (shift, scale)).

End TrainExample.

(** * Properties of the entry point *)

Unset Implicit Arguments.
Unset Maximal Implicit Insertion.

Section IterateFacts.

Variables Config Workflow World : Type.
Variable record_file : Workflow -> string.
Variable path_exists : World -> string -> bool.
Variable make_iterate : Config -> World -> result Workflow * World.
Variable wf_run : Workflow -> World -> result unit * World.
Variable wf_restart : Workflow -> World -> result unit * World.

Local Abbreviation main :=
  (Iterate.main record_file path_exists make_iterate wf_run wf_restart).

(** The calls of a run of [main] whose workflow was built. *)
Lemma main_calls_built (cfg : Config) (w0 w1 : World) (it : Workflow) :
  make_iterate cfg w0 = (Ok it, w1) ->
  Iterate.calls (snd (main cfg (Iterate.boot w0))) =
  [ Iterate.CallMakeIterate cfg;
    Iterate.CallPathExists (record_file it);
    if path_exists w1 (record_file it)
    then Iterate.CallRestart it
    else Iterate.CallRun it ].
Proof.
  intros Hbuild.
  unfold Iterate.main, bind, Iterate.external, Iterate.boot; simpl.
  rewrite Hbuild; cbn.
  destruct (path_exists w1 (record_file it)); cbn.
  - destruct (wf_restart it w1); reflexivity.
  - destruct (wf_run it w1); reflexivity.
Qed.

(** The three shapes of a run of [main]. *)
Lemma main_run_shape (cfg : Config) (w0 : World) :
  (exists e w1,
      make_iterate cfg w0 = (Raise e, w1) /\
      main cfg (Iterate.boot w0) =
      (Raise e, Iterate.Machine w1 [Iterate.CallMakeIterate cfg])) \/
  (exists it w1,
      make_iterate cfg w0 = (Ok it, w1) /\
      path_exists w1 (record_file it) = true /\
      main cfg (Iterate.boot w0) =
      (fst (wf_restart it w1),
       Iterate.Machine (snd (wf_restart it w1))
                       [Iterate.CallMakeIterate cfg;
                        Iterate.CallPathExists (record_file it);
                        Iterate.CallRestart it])) \/
  (exists it w1,
      make_iterate cfg w0 = (Ok it, w1) /\
      path_exists w1 (record_file it) = false /\
      main cfg (Iterate.boot w0) =
      (fst (wf_run it w1),
       Iterate.Machine (snd (wf_run it w1))
                       [Iterate.CallMakeIterate cfg;
                        Iterate.CallPathExists (record_file it);
                        Iterate.CallRun it])).
Proof.
  destruct (make_iterate cfg w0) as [[it | e] w1] eqn:Hbuild.
  - right. destruct (path_exists w1 (record_file it)) eqn:Hrec.
    + left. exists it, w1.
      split; [reflexivity |]. split; [exact Hrec |].
      unfold Iterate.main, bind, Iterate.external, Iterate.boot; cbn.
      rewrite Hbuild; cbn. rewrite Hrec; cbn.
      destruct (wf_restart it w1); reflexivity.
    + right. exists it, w1.
      split; [reflexivity |]. split; [exact Hrec |].
      unfold Iterate.main, bind, Iterate.external, Iterate.boot; cbn.
      rewrite Hbuild; cbn. rewrite Hrec; cbn.
      destruct (wf_run it w1); reflexivity.
  - left. exists e, w1. split; [reflexivity |].
    unfold Iterate.main, bind, Iterate.external, Iterate.boot; cbn.
    rewrite Hbuild. reflexivity.
Qed.

(** C1: when [make_iterate] has built the workflow, [main] calls it
    first, then looks for the record file, then calls [restart] if and
    only if the file exists and [run] if and only if it does not; exactly
    one of the two is called, and it is run: the outcome of [main] and
    the world it leaves are those of that method on the built workflow. *)
Theorem main_dispatches_on_record
        (cfg : Config) (w0 w1 : World) (it : Workflow) :
  make_iterate cfg w0 = (Ok it, w1) ->
  let cs := Iterate.calls (snd (main cfg (Iterate.boot w0))) in
  let stage := if path_exists w1 (record_file it)
               then wf_restart else wf_run in
  hd_error cs = Some (Iterate.CallMakeIterate cfg) /\
  ((exists w, In (Iterate.CallRestart w) cs) <->
   path_exists w1 (record_file it) = true) /\
  ((exists w, In (Iterate.CallRun w) cs) <->
   path_exists w1 (record_file it) = false) /\
  (forall w, In (Iterate.CallRestart w) cs \/
             In (Iterate.CallRun w) cs -> w = it) /\
  (Iterate.count Iterate.is_restart cs +
   Iterate.count Iterate.is_run cs = 1)%nat /\
  fst (main cfg (Iterate.boot w0)) = fst (stage it w1) /\
  Iterate.world (snd (main cfg (Iterate.boot w0))) = snd (stage it w1).
Proof.
  intros Hbuild cs stage. subst cs stage.
  destruct (main_run_shape cfg w0)
    as [(e & w & Hb & _) | [(it' & w & Hb & Hrec & Hrun) |
                            (it' & w & Hb & Hrec & Hrun)]];
    rewrite Hbuild in Hb; try discriminate;
    injection Hb as <- <-; rewrite Hrec, Hrun; cbn.
  - split; [reflexivity |].
    split; [split; [reflexivity | intros _; exists it; auto] |].
    split; [split; [| discriminate] |].
    { intros [w [H | [H | [H | []]]]]; discriminate. }
    split; [| repeat split].
    intros w [[H | [H | [H | []]]] | [H | [H | [H | []]]]]; congruence.
  - split; [reflexivity |].
    split; [split; [| discriminate] |].
    { intros [w [H | [H | [H | []]]]]; discriminate. }
    split; [split; [reflexivity | intros _; exists it; auto] |].
    split; [| repeat split].
    intros w [[H | [H | [H | []]]] | [H | [H | [H | []]]]]; congruence.
Qed.

(** C7: when [make_iterate] raises, [main] raises the same exception
    with the world as [make_iterate] left it, and has made no other
    call: it has neither looked for the record file nor called [run] or
    [restart]. *)
Theorem main_propagates_build_error
        (cfg : Config) (w0 w1 : World) (e : exn) :
  make_iterate cfg w0 = (Raise e, w1) ->
  main cfg (Iterate.boot w0) =
  (Raise e, Iterate.Machine w1 [Iterate.CallMakeIterate cfg]) /\
  let cs := Iterate.calls (snd (main cfg (Iterate.boot w0))) in
  Iterate.count Iterate.is_restart cs = 0%nat /\
  Iterate.count Iterate.is_run cs = 0%nat /\
  Iterate.count Iterate.is_path_exists cs = 0%nat.
Proof.
  intros Hbuild.
  assert (Hmain : main cfg (Iterate.boot w0) =
                  (Raise e,
                   Iterate.Machine w1 [Iterate.CallMakeIterate cfg])).
  { unfold Iterate.main, bind, Iterate.external, Iterate.boot; simpl.
    rewrite Hbuild. reflexivity. }
  split; [exact Hmain |].
  rewrite Hmain. simpl. repeat split.
Qed.

End IterateFacts.

(** A run in a working directory with a share folder and a record. *)
Lemma main_dispatches_on_record_witness :
  let cs := Iterate.calls
              (snd (IterateExample.main
                      "work" (Iterate.boot ["work/share"; "work/RECORD"]%string)))
  in
  let stage := if IterateExample.path_exists
                    ["work/share"; "work/RECORD"]%string
                    (IterateExample.record_file "work/RECORD")
               then IterateExample.wf_restart else IterateExample.wf_run in
  hd_error cs = Some (Iterate.CallMakeIterate "work"%string) /\
  ((exists w, In (Iterate.CallRestart w) cs) <->
   IterateExample.path_exists ["work/share"; "work/RECORD"]%string
     (IterateExample.record_file "work/RECORD") = true) /\
  ((exists w, In (Iterate.CallRun w) cs) <->
   IterateExample.path_exists ["work/share"; "work/RECORD"]%string
     (IterateExample.record_file "work/RECORD") = false) /\
  (forall w, In (Iterate.CallRestart w) cs \/
             In (Iterate.CallRun w) cs -> w = "work/RECORD"%string) /\
  (Iterate.count Iterate.is_restart cs +
   Iterate.count Iterate.is_run cs = 1)%nat /\
  fst (IterateExample.main
         "work" (Iterate.boot ["work/share"; "work/RECORD"]%string)) =
  fst (stage "work/RECORD"%string ["work/share"; "work/RECORD"]%string) /\
  Iterate.world
    (snd (IterateExample.main
            "work" (Iterate.boot ["work/share"; "work/RECORD"]%string))) =
  snd (stage "work/RECORD"%string ["work/share"; "work/RECORD"]%string).
Proof.
  apply (main_dispatches_on_record
           string string IterateExample.world
           IterateExample.record_file IterateExample.path_exists
           IterateExample.make_iterate IterateExample.wf_run
           IterateExample.wf_restart
           "work"%string ["work/share"; "work/RECORD"]%string
           ["work/share"; "work/RECORD"]%string "work/RECORD"%string).
  reflexivity.
Defined.

(** A run in a working directory without a share folder. *)
Lemma main_propagates_build_error_witness :
  IterateExample.main "work" (Iterate.boot ["work/RECORD"%string]) =
  (Raise FileNotFoundError,
   Iterate.Machine ["work/RECORD"%string]
                   [Iterate.CallMakeIterate "work"%string]).
Proof.
  apply (main_propagates_build_error
           string string IterateExample.world
           IterateExample.record_file IterateExample.path_exists
           IterateExample.make_iterate IterateExample.wf_run
           IterateExample.wf_restart
           "work"%string ["work/RECORD"%string] ["work/RECORD"%string]
           FileNotFoundError).
  reflexivity.
Defined.

(** * Properties of the trainer *)

Section TrainerFacts.

Import Train.
Open Scope R_scope.

Variables Tensor Params Optimizer : Type.
Variable forward : model Params -> Tensor -> Tensor.
Variable autograd_grad : (Tensor -> Tensor) -> Tensor -> Tensor.
Variable einsum : string -> Tensor -> Tensor -> Tensor.
Variable tneg : Tensor -> Tensor.
Variable mse_loss : Tensor -> Tensor -> R.
Variable adam : model Params -> R -> R -> Optimizer.
Variable optimizer_step :
  Optimizer -> R -> (model Params -> result R) -> model Params
  -> model Params * Optimizer.
Variable clock : nat -> R.

Local Abbreviation make_evaluator :=
  (Train.make_evaluator forward autograd_grad einsum tneg).
Local Abbreviation calc_force := (Train.calc_force autograd_grad einsum tneg).
Local Abbreviation train :=
  (Train.train forward autograd_grad einsum tneg mse_loss
               adam optimizer_step clock).

(** *** Tests on numbers *)

Lemma positive_true (x : R) : 0 < x -> positive x = true.
Proof. intros H. unfold positive. destruct (Rlt_dec 0 x); [reflexivity | lra]. Qed.

Lemma positive_false (x : R) : x <= 0 -> positive x = false.
Proof. intros H. unfold positive. destruct (Rlt_dec 0 x); [lra | reflexivity]. Qed.

(** *** The evaluator *)

(** C4: on a sample [e_label, eig, ...] the evaluator of
    [make_evaluator(0, MSELoss)] returns the energy loss
    [MSE(model(eig), e_label)]; on a sample [e_label, eig, f_label, gvx]
    the evaluator of a positive [force_factor] returns the energy loss
    plus [force_factor] times [MSE(f_pred, f_label)], where [f_pred] is
    minus the contraction ["...bxap,...ap->...bx"] of [gvx] with the
    gradient of the predicted energy with respect to [eig]. *)
Theorem evaluator_loss
        (force_factor : R) (m : model Params)
        (e_label eig f_label gvx : Tensor) (rest : list Tensor) :
  (force_factor = 0 ->
   make_evaluator force_factor mse_loss m (e_label :: eig :: rest) =
   Ok (mse_loss (forward m eig) e_label)) /\
  (0 < force_factor ->
   calc_force (forward m) eig gvx =
   tneg (einsum "...bxap,...ap->...bx" gvx (autograd_grad (forward m) eig)) /\
   make_evaluator force_factor mse_loss m [e_label; eig; f_label; gvx] =
   Ok (mse_loss (forward m eig) e_label +
       force_factor * mse_loss (calc_force (forward m) eig gvx) f_label)).
Proof.
  split.
  - intros H0. unfold Train.make_evaluator.
    rewrite positive_false by lra. reflexivity.
  - intros Hpos. split; [reflexivity |].
    unfold Train.make_evaluator.
    rewrite positive_true by assumption. reflexivity.
Qed.

(** *** Preprocessing *)

(** C6: a second [preprocess] with the same options, on a reader whose
    statistics and prefitting agree with those of the first call, leaves
    the model as the first call left it. *)
Theorem preprocess_idempotent
        (m : model Params) (r1 r2 : reader Tensor) (a : preprocess_args) :
  compute_data_stat r2 = compute_data_stat r1 ->
  (forall shift scale ridge,
      compute_prefitting r2 shift scale ridge =
      compute_prefitting r1 shift scale ridge) ->
  preprocess (preprocess m r1 a) r2 a = preprocess m r1 a.
Proof.
  intros Hstat Hfit.
  destruct a as [psh psc psq clip pf ridge tr].
  destruct m as [p sh sc w b t].
  unfold preprocess; cbn [Train.preshift Train.prescale Train.prescale_sqrt
    Train.prescale_clip Train.prefit Train.prefit_ridge
    Train.prefit_trainable_arg].
  rewrite Hstat.
  destruct (compute_data_stat r1) as [davg dstd].
  destruct psh, psc, pf;
    unfold set_prefitting, set_normalization;
    cbn -[truthy np_clip np_sqrt];
    try reflexivity;
    match goal with
    | |- context [compute_prefitting r1 ?s ?c ?x] =>
        destruct (compute_prefitting r1 s c x) as [w1 b1] eqn:Efit
    end;
    cbn -[truthy np_clip np_sqrt];
    rewrite ?Hfit, ?Efit; reflexivity.
Qed.

(** *** The evaluator on well-formed samples *)

Local Abbreviation state := (Train.state Params Optimizer).

Lemma evaluator_total (ff : R) (m : model Params) (smp : sample Tensor) :
  sample_ok ff smp = true ->
  exists v, make_evaluator ff mse_loss m smp = Ok v.
Proof.
  unfold sample_ok, Train.make_evaluator.
  destruct smp as [| e_label [| eig force_sample]]; try discriminate.
  destruct (positive ff); [| eauto].
  destruct force_sample as [| f_label [| gvx [| x rest]]]; try discriminate.
  eauto.
Qed.

Lemma evaluate_all_total (ff : R) (m : model Params) (l : list (sample Tensor)) :
  forallb (sample_ok ff) l = true ->
  exists vs, map_result (make_evaluator ff mse_loss m) l = Ok vs.
Proof.
  induction l as [| smp l IH]; cbn [forallb map_result]; intros H.
  - eauto.
  - apply andb_prop in H. destruct H as [Hs Hl].
    destruct (evaluator_total ff m smp Hs) as [v Hv].
    destruct (IH Hl) as [vs Hvs].
    rewrite Hv, Hvs. cbn. eauto.
Qed.

(** *** One pass over the training batches *)

Lemma train_pass_spec (ev : model Params -> sample Tensor -> result R)
      (l : list (sample Tensor)) :
  forall (s s' : state) (r : result (list R)),
    map_m (train_step optimizer_step ev) l s = (r, s') ->
    lr s' = lr s /\ last_epoch s' = last_epoch s /\
    ticks s' = ticks s /\ epoch s' = epoch s /\
    exists evs,
      log s' = log s ++ evs /\
      Forall (fun x => fst x = epoch s /\ is_training (snd x) = true) evs.
Proof.
  induction l as [| smp l IH]; intros s s' r H.
  - cbn in H. inversion H; subst.
    repeat split. exists []. rewrite app_nil_r. auto.
  - cbn [map_m] in H. unfold bind at 1 in H.
    unfold train_step at 1 in H. unfold bind at 1 in H.
    unfold evaluate at 1 in H.
    destruct (ev (net s) smp) as [loss | e].
    + unfold bind at 1 in H. unfold backward_and_step at 1 in H.
      destruct (optimizer_step (opt s) (lr s) (fun m => ev m smp) (net s))
        as [m' o'].
      cbn [ret] in H.
      unfold bind at 1 in H.
      match type of H with
      | context [map_m _ l ?s1] =>
          destruct (map_m (train_step optimizer_step ev) l s1)
            as [[ys | e] s2] eqn:Hrest;
          apply IH in Hrest; cbn in Hrest;
          destruct Hrest as (Hlr & Hle & Htk & Hep & evs & Hlog & Hall)
      end.
      * cbn in H. inversion H; subst.
        repeat split; try assumption.
        exists ((epoch s, OptimizerStep loss) :: evs).
        rewrite Hlog, <- app_assoc. split; [reflexivity |].
        constructor; [split; reflexivity | assumption].
      * inversion H; subst.
        repeat split; try assumption.
        exists ((epoch s, OptimizerStep loss) :: evs).
        rewrite Hlog, <- app_assoc. split; [reflexivity |].
        constructor; [split; reflexivity | assumption].
    + inversion H; subst.
      repeat split. exists []. rewrite app_nil_r. auto.
Qed.

Lemma train_pass_total (ff : R) (l : list (sample Tensor)) :
  forallb (sample_ok ff) l = true ->
  forall s : state,
  exists losses s',
    map_m (train_step optimizer_step (make_evaluator ff mse_loss)) l s =
    (Ok losses, s').
Proof.
  induction l as [| smp l IH]; cbn [forallb]; intros H s.
  - do 2 eexists; reflexivity.
  - apply andb_prop in H. destruct H as [Hs Hl].
    cbn [map_m]. unfold bind at 1, train_step at 1, bind at 1, evaluate at 1.
    destruct (evaluator_total ff (net s) smp Hs) as [v Hv]. rewrite Hv.
    unfold bind at 1, backward_and_step at 1.
    destruct (optimizer_step (opt s) (lr s) _ (net s)) as [m' o'].
    cbn [ret]. unfold bind at 1.
    match goal with
    | |- context [map_m _ l ?s1] => destruct (IH Hl s1) as (ys & s2 & Hrest)
    end.
    rewrite Hrest. do 2 eexists; reflexivity.
Qed.

(** *** Events of a list, by kind *)

Lemma epochs_of_app (p : event Params -> bool) (l1 l2 : list (Z * event Params)) :
  epochs_of p (l1 ++ l2) = epochs_of p l1 ++ epochs_of p l2.
Proof. unfold epochs_of. rewrite filter_app, map_app. reflexivity. Qed.

Lemma epochs_of_training (k : display_kind) (evs : list (Z * event Params)) (e : Z) :
  Forall (fun x => fst x = e /\ is_training (snd x) = true) evs ->
  epochs_of (of_kind k) evs = [].
Proof.
  induction 1 as [| [e' ev] evs [_ Hev] _ IH]; [reflexivity |].
  unfold epochs_of in *. cbn [filter snd] in *.
  destruct ev, k; cbn in Hev |- *; try discriminate; exact IH.
Qed.

(** *** The display block *)

Lemma display_spec (ev : model Params -> sample Tensor -> result R)
      (tst : reader Tensor) (ckpt : string) (e : Z) (ll : list R) (tic : R)
      (s s' : state) (r : result unit) :
  display clock ev tst ckpt e ll tic s = (r, s') ->
  lr s' = lr s /\ last_epoch s' = last_epoch s /\ epoch s' = epoch s /\
  exists evs,
    log s' = log s ++ evs /\
    (forall k, epochs_of (of_kind k) evs = [] \/
               (epochs_of (of_kind k) evs = [epoch s] /\
                (k = KSave -> nonempty ckpt = true))) /\
    (r = Ok tt ->
     forall k, epochs_of (of_kind k) evs =
               if match k with KSave => nonempty ckpt | _ => true end
               then [epoch s] else []).
Proof.
  unfold display, bind, emit, now, evaluate_all, get_last_lr, save, ret.
  cbn.
  destruct (map_result (ev (net s)) (sample_all_batch tst)) as [tl | x].
  - destruct (nonempty ckpt) eqn:Hck; intros H; inversion H; subst; cbn;
      repeat split; eexists; (split; [rewrite <- !app_assoc; reflexivity |]).
    + split.
      * intros k; right; destruct k; cbn; auto.
      * intros _ k; destruct k; reflexivity.
    + split.
      * intros k; destruct k; cbn; auto; right; split; auto; discriminate.
      * intros _ k; destruct k; reflexivity.
  - intros H; inversion H; subst; cbn.
    repeat split. eexists. split; [reflexivity |].
    split.
    + intros k; destruct k; cbn; auto.
      right; split; auto; discriminate.
    + discriminate.
Qed.

Lemma display_total (ff : R) (tst : reader Tensor) (ckpt : string) (e : Z)
      (ll : list R) (tic : R) (s : state) :
  forallb (sample_ok ff) (sample_all_batch tst) = true ->
  exists s', display clock (make_evaluator ff mse_loss) tst ckpt e ll tic s
             = (Ok tt, s').
Proof.
  intros Hok.
  unfold display, bind, emit, now, evaluate_all, get_last_lr, save, ret.
  cbn.
  destruct (evaluate_all_total ff (net s) _ Hok) as [vs Hvs].
  rewrite Hvs.
  destruct (nonempty ckpt); eexists; reflexivity.
Qed.

(** *** One epoch *)

Lemma train_epoch_spec (ev : model Params -> sample Tensor -> result R)
      (g tst : reader Tensor) (step : Z) (gamma : R) (d : Z) (ckpt : string)
      (e : Z) (s s' : state) (r : result unit) :
  train_epoch optimizer_step clock ev g tst step gamma d ckpt e s = (r, s') ->
  exists evs,
    log s' = log s ++ evs /\
    (forall k, epochs_of (of_kind k) evs = [] \/
               (epochs_of (of_kind k) evs = [e] /\ fires d ckpt k e = true)) /\
    (r = Ok tt ->
     (forall k, epochs_of (of_kind k) evs =
                if fires d ckpt k e then [e] else []) /\
     step <> 0%Z /\
     last_epoch s' = (last_epoch s + 1)%Z /\
     lr s' = if ((last_epoch s + 1) mod step =? 0)%Z
             then lr s * gamma else lr s).
Proof.
  unfold train_epoch.
  unfold bind at 1, set_epoch at 1.
  unfold bind at 1, now at 1.
  unfold bind at 1.
  match goal with
  | |- context [map_m _ _ ?s1] =>
      set (s1' := s1);
      destruct (map_m (train_step optimizer_step ev) (batches g) s1')
        as [[ll | x] s2] eqn:Hpass;
      apply train_pass_spec in Hpass;
      destruct Hpass as (Hlr & Hle & Htk & Hep & evs1 & Hlog1 & Hall1);
      subst s1'; cbn [lr last_epoch ticks epoch log] in *
  end.
  2: { intros H; injection H as <- <-.
       exists evs1. split; [assumption |]. split; [| discriminate].
       intros k. left. apply (epochs_of_training k _ _ Hall1). }
  unfold bind at 1, scheduler_step at 1, py_mod at 1.
  destruct (step =? 0)%Z eqn:Hstep.
  { intros H; injection H as <- <-.
    exists evs1. split; [assumption |]. split; [| discriminate].
    intros k. left. apply (epochs_of_training k _ _ Hall1). }
  apply Z.eqb_neq in Hstep.
  unfold bind at 1, lift at 1, fires, due.
  destruct (py_mod e d) as [q | x] eqn:Hmod.
  2: { intros H; injection H as <- <-. cbn [log].
       exists (evs1 ++ [(epoch s2, SchedulerStep)]).
       rewrite Hlog1, <- app_assoc. split; [reflexivity |].
       split; [| discriminate].
       intros k. left. rewrite epochs_of_app, (epochs_of_training k _ _ Hall1).
       destruct k; reflexivity. }
  destruct (q =? 0)%Z eqn:Hq.
  - intros H. apply display_spec in H. cbn [lr last_epoch epoch log] in H.
    destruct H as (Hlr' & Hle' & Hep' & evs2 & Hlog2 & Hany & Hok).
    exists (evs1 ++ [(epoch s2, SchedulerStep)] ++ evs2).
    rewrite Hlog2, Hlog1, <- !app_assoc. split; [reflexivity |].
    assert (Hsplit : forall k,
               epochs_of (of_kind k)
                         (evs1 ++ [(epoch s2, SchedulerStep)] ++ evs2) =
               epochs_of (of_kind k) evs2).
    { intros k. rewrite !epochs_of_app, (epochs_of_training k _ _ Hall1).
      destruct k; reflexivity. }
    split.
    + intros k. rewrite Hsplit, <- Hep.
      destruct (Hany k) as [Hnone | [Hone Hck]]; [left; assumption |].
      right. split; [assumption |].
      destruct k; cbn; auto.
    + intros Hr. split; [| split; [assumption | split]].
      * intros k. rewrite Hsplit, <- Hep, (Hok Hr k). cbn [andb]. reflexivity.
      * rewrite Hle'. rewrite Hle. reflexivity.
      * rewrite Hlr', Hle, Hlr. reflexivity.
  - unfold ret. intros H; injection H as <- <-. cbn [log lr last_epoch].
    exists (evs1 ++ [(epoch s2, SchedulerStep)]).
    rewrite Hlog1, <- app_assoc. split; [reflexivity |].
    assert (Hsplit : forall k,
               epochs_of (of_kind k) (evs1 ++ [(epoch s2, SchedulerStep)]) = []).
    { intros k. rewrite epochs_of_app, (epochs_of_training k _ _ Hall1).
      destruct k; reflexivity. }
    split.
    + intros k. left. apply Hsplit.
    + intros _. split; [| split; [assumption | split]].
      * intros k. rewrite Hsplit. reflexivity.
      * rewrite Hle. reflexivity.
      * rewrite Hle, Hlr. reflexivity.
Qed.

Lemma train_epoch_total (ff : R) (g tst : reader Tensor) (step : Z) (gamma : R)
      (d : Z) (ckpt : string) (e : Z) (s : state) :
  forallb (sample_ok ff) (batches g) = true ->
  forallb (sample_ok ff) (sample_all_batch tst) = true ->
  step <> 0%Z -> d <> 0%Z ->
  exists s',
    train_epoch optimizer_step clock (make_evaluator ff mse_loss)
                g tst step gamma d ckpt e s = (Ok tt, s').
Proof.
  intros Hg Ht Hstep Hd.
  unfold train_epoch.
  unfold bind at 1, set_epoch at 1.
  unfold bind at 1, now at 1.
  unfold bind at 1.
  match goal with
  | |- context [map_m _ _ ?s1] =>
      destruct (train_pass_total ff _ Hg s1) as (ll & s2 & Hpass)
  end.
  rewrite Hpass.
  unfold bind at 1, scheduler_step at 1, py_mod at 1.
  apply Z.eqb_neq in Hstep. rewrite Hstep.
  unfold bind at 1, lift at 1, py_mod.
  apply Z.eqb_neq in Hd. rewrite Hd.
  destruct (e mod d =? 0)%Z.
  - apply display_total. assumption.
  - eexists; reflexivity.
Qed.

(** *** The epoch loop *)

Lemma epoch_loop_spec (ev : model Params -> sample Tensor -> result R)
      (g tst : reader Tensor) (step : Z) (gamma : R) (d : Z) (ckpt : string)
      (l : list Z) :
  forall (s s' : state) (r : result unit),
    for_each l (train_epoch optimizer_step clock ev g tst step gamma d ckpt) s
    = (r, s') ->
    exists evs,
      log s' = log s ++ evs /\
      (forall k e, In e (epochs_of (of_kind k) evs) ->
                   In e l /\ fires d ckpt k e = true) /\
      (r = Ok tt ->
       forall k, epochs_of (of_kind k) evs = filter (fires d ckpt k) l).
Proof.
  induction l as [| e l IH]; intros s s' r H.
  - cbn in H. injection H as <- <-. exists []. rewrite app_nil_r.
    split; [reflexivity |]. split; [intros k e [] | reflexivity].
  - cbn [for_each] in H. unfold bind at 1 in H.
    destruct (train_epoch optimizer_step clock ev g tst step gamma d ckpt e s)
      as [[[] | x] s1] eqn:He;
      apply train_epoch_spec in He;
      destruct He as (evs1 & Hlog1 & Hany1 & Hok1).
    + apply IH in H. destruct H as (evs2 & Hlog2 & Hany2 & Hok2).
      exists (evs1 ++ evs2). rewrite Hlog2, Hlog1, <- app_assoc.
      split; [reflexivity |]. split.
      * intros k e'. rewrite epochs_of_app, in_app_iff. intros [Hin | Hin].
        -- destruct (Hany1 k) as [Hnone | [Hone Hf]].
           ++ rewrite Hnone in Hin. destruct Hin.
           ++ rewrite Hone in Hin. destruct Hin as [<- | []].
              split; [left; reflexivity | assumption].
        -- destruct (Hany2 k e' Hin) as [Hl Hf].
           split; [right; assumption | assumption].
      * intros Hr k. rewrite epochs_of_app.
        destruct (Hok1 eq_refl) as [Hk1 _].
        rewrite (Hk1 k), (Hok2 Hr k). cbn [filter].
        destruct (fires d ckpt k e); reflexivity.
    + injection H as <- <-. exists evs1.
      split; [assumption |]. split; [| discriminate].
      intros k e' Hin.
      destruct (Hany1 k) as [Hnone | [Hone Hf]].
      * rewrite Hnone in Hin. destruct Hin.
      * rewrite Hone in Hin. destruct Hin as [<- | []].
        split; [left; reflexivity | assumption].
Qed.

Lemma epoch_loop_total (ff : R) (g tst : reader Tensor) (step : Z) (gamma : R)
      (d : Z) (ckpt : string) (l : list Z) :
  forallb (sample_ok ff) (batches g) = true ->
  forallb (sample_ok ff) (sample_all_batch tst) = true ->
  step <> 0%Z -> d <> 0%Z ->
  forall s : state,
  exists s',
    for_each l (train_epoch optimizer_step clock (make_evaluator ff mse_loss)
                            g tst step gamma d ckpt) s = (Ok tt, s').
Proof.
  intros Hg Ht Hstep Hd.
  induction l as [| e l IH]; intros s.
  - eexists; reflexivity.
  - cbn [for_each]. unfold bind at 1.
    destruct (train_epoch_total ff g tst step gamma d ckpt e s Hg Ht Hstep Hd)
      as [s1 He].
    rewrite He. apply IH.
Qed.

(** *** Rows, test losses and checkpoints are what they should be *)

Lemma training_event_ok (ev : model Params -> sample Tensor -> result R)
      (tst : reader Tensor) (ckpt : string) (evs : list (Z * event Params))
      (e : Z) :
  Forall (fun x => fst x = e /\ is_training (snd x) = true) evs ->
  Forall (event_ok ev tst ckpt) evs.
Proof.
  apply Forall_impl. intros [e' x] [_ Hx].
  unfold event_ok, well_stamped, reported_on.
  destruct x; cbn in Hx |- *; try discriminate; split; exact I.
Qed.

Lemma display_event_ok (ev : model Params -> sample Tensor -> result R)
      (tst : reader Tensor) (ckpt : string) (e : Z) (ll : list R) (tic : R)
      (s s' : state) (r : result unit) :
  display clock ev tst ckpt e ll tic s = (r, s') ->
  epoch s = e ->
  Forall (event_ok ev tst ckpt) (log s) ->
  Forall (event_ok ev tst ckpt) (log s').
Proof.
  unfold display, bind, emit, now, evaluate_all, get_last_lr, save, ret.
  cbn.
  destruct (map_result (ev (net s)) (sample_all_batch tst)) as [tl | x] eqn:Htl;
    [destruct (nonempty ckpt) |];
    intros H He Hlog; injection H as <- <-; cbn;
    repeat (apply Forall_app; split); try assumption;
    repeat (apply Forall_cons || apply Forall_nil);
    unfold event_ok, well_stamped, reported_on; cbn;
    (split; [auto | eauto]).
Qed.

Lemma train_epoch_event_ok (ev : model Params -> sample Tensor -> result R)
      (g tst : reader Tensor) (step : Z) (gamma : R) (d : Z) (ckpt : string)
      (e : Z) (s s' : state) (r : result unit) :
  train_epoch optimizer_step clock ev g tst step gamma d ckpt e s = (r, s') ->
  Forall (event_ok ev tst ckpt) (log s) ->
  Forall (event_ok ev tst ckpt) (log s').
Proof.
  intros H Hlog. revert H.
  unfold train_epoch.
  unfold bind at 1, set_epoch at 1.
  unfold bind at 1, now at 1.
  unfold bind at 1.
  match goal with
  | |- context [map_m _ _ ?s1] =>
      set (s1' := s1);
      destruct (map_m (train_step optimizer_step ev) (batches g) s1')
        as [[ll | x] s2] eqn:Hpass;
      apply train_pass_spec in Hpass;
      destruct Hpass as (_ & _ & _ & Hep & evs1 & Hlog1 & Hall1);
      subst s1'; cbn [lr last_epoch ticks epoch log] in *
  end.
  2: { intros H; injection H as <- <-. rewrite Hlog1.
       apply Forall_app. split; [assumption |].
       apply (training_event_ok ev tst ckpt _ _ Hall1). }
  assert (Hlog2 : Forall (event_ok ev tst ckpt) (log s2)).
  { rewrite Hlog1. apply Forall_app. split; [assumption |].
    apply (training_event_ok ev tst ckpt _ _ Hall1). }
  assert (Hstep : forall e', event_ok ev tst ckpt (e', SchedulerStep)).
  { intros e'. split; exact I. }
  unfold bind at 1, scheduler_step at 1, py_mod at 1.
  destruct (step =? 0)%Z.
  { intros H; injection H as <- <-. assumption. }
  unfold bind at 1, lift at 1.
  destruct (py_mod e d) as [q | x].
  2: { intros H; injection H as <- <-. cbn [log].
       apply Forall_app. split; [assumption |].
       constructor; [apply Hstep | constructor]. }
  destruct (q =? 0)%Z.
  - intros H. apply display_event_ok in H; [assumption | exact Hep |].
    cbn [log]. apply Forall_app. split; [assumption |].
    constructor; [apply Hstep | constructor].
  - unfold ret. intros H; injection H as <- <-. cbn [log].
    apply Forall_app. split; [assumption |].
    constructor; [apply Hstep | constructor].
Qed.

Lemma epoch_loop_event_ok (ev : model Params -> sample Tensor -> result R)
      (g tst : reader Tensor) (step : Z) (gamma : R) (d : Z) (ckpt : string)
      (l : list Z) :
  forall (s s' : state) (r : result unit),
    for_each l (train_epoch optimizer_step clock ev g tst step gamma d ckpt) s
    = (r, s') ->
    Forall (event_ok ev tst ckpt) (log s) ->
    Forall (event_ok ev tst ckpt) (log s').
Proof.
  induction l as [| e l IH]; intros s s' r H Hlog.
  - cbn in H. injection H as <- <-. assumption.
  - cbn [for_each] in H. unfold bind at 1 in H.
    destruct (train_epoch optimizer_step clock ev g tst step gamma d ckpt e s)
      as [[[] | x] s1] eqn:He;
      apply train_epoch_event_ok in He; try assumption.
    + apply (IH _ _ _ H He).
    + injection H as <- <-. assumption.
Qed.

(** *** The learning rate along the loop *)

Lemma step_lr_succ (start gamma : R) (step k : Z) :
  (0 < step)%Z -> (0 <= k)%Z ->
  step_lr start gamma step (k + 1) =
  if ((k + 1) mod step =? 0)%Z
  then step_lr start gamma step k * gamma
  else step_lr start gamma step k.
Proof.
  intros Hstep Hk. unfold step_lr.
  assert (Hq : (0 <= k / step)%Z) by (apply Z.div_pos; lia).
  destruct ((k + 1) mod step =? 0)%Z eqn:Hm.
  - apply Z.eqb_eq in Hm.
    assert (Hdiv : ((k + 1) / step = k / step + 1)%Z).
    { pose proof (Z.div_mod (k + 1) step ltac:(lia)) as E1.
      pose proof (Z.div_mod k step ltac:(lia)) as E2.
      pose proof (Z.mod_pos_bound k step Hstep) as B2.
      rewrite Hm in E1. nia. }
    rewrite Hdiv, Z2Nat.inj_add by lia.
    change (Z.to_nat 1) with 1%nat. rewrite pow_add. simpl. ring.
  - apply Z.eqb_neq in Hm.
    assert (Hdiv : ((k + 1) / step = k / step)%Z).
    { pose proof (Z.div_mod (k + 1) step ltac:(lia)) as E1.
      pose proof (Z.div_mod k step ltac:(lia)) as E2.
      pose proof (Z.mod_pos_bound k step Hstep) as B2.
      pose proof (Z.mod_pos_bound (k + 1) step Hstep) as B1.
      nia. }
    rewrite Hdiv. reflexivity.
Qed.

Lemma epoch_loop_lr (ev : model Params -> sample Tensor -> result R)
      (g tst : reader Tensor) (step : Z) (start gamma : R) (d : Z)
      (ckpt : string) (l : list Z) :
  (0 < step)%Z ->
  forall s s' : state,
    (0 <= last_epoch s)%Z ->
    lr s = step_lr start gamma step (last_epoch s) ->
    for_each l (train_epoch optimizer_step clock ev g tst step gamma d ckpt) s
    = (Ok tt, s') ->
    last_epoch s' = (last_epoch s + Z.of_nat (List.length l))%Z /\
    lr s' = step_lr start gamma step (last_epoch s').
Proof.
  intros Hstep.
  induction l as [| e l IH]; intros s s' Hle Hlr H.
  - cbn in H. injection H as <-. cbn. split; [lia | assumption].
  - cbn [for_each] in H. unfold bind at 1 in H.
    destruct (train_epoch optimizer_step clock ev g tst step gamma d ckpt e s)
      as [[[] | x] s1] eqn:He; [| discriminate].
    apply train_epoch_spec in He.
    destruct He as (evs1 & _ & _ & Hok1).
    destruct (Hok1 eq_refl) as (_ & _ & Hle1 & Hlr1).
    apply IH in H.
    + destruct H as [Hle' Hlr']. split; [| assumption].
      rewrite Hle', Hle1. cbn [List.length]. lia.
    + lia.
    + rewrite Hlr1, Hle1, Hlr. symmetry. apply step_lr_succ; assumption.
Qed.

(** *** Building the optimizer *)

Lemma adam_arguments_dec (a : train_args Tensor) :
  {0 <= start_lr a /\ 0 <= weight_decay a} +
  {start_lr a < 0 \/ weight_decay a < 0}.
Proof.
  destruct (Rlt_dec (start_lr a) 0) as [Hlr | Hlr]; [right; left; exact Hlr |].
  destruct (Rlt_dec (weight_decay a) 0) as [Hwd | Hwd];
    [right; right; exact Hwd |].
  left. split; lra.
Qed.

Lemma build_optimizer_ok (a : train_args Tensor) (m : model Params)
      (le : Z) (tk : nat) (ep : Z) (lg : list (Z * event Params)) :
  0 <= start_lr a -> 0 <= weight_decay a ->
  build_optimizer adam a
    (State m (adam m (start_lr a) (weight_decay a)) (start_lr a) le tk ep lg)
  = (Ok tt,
     State m (adam m (start_lr a) (weight_decay a)) (start_lr a) le tk ep lg).
Proof.
  intros Hlr Hwd. unfold build_optimizer, optim_adam. cbn [net].
  destruct (Rlt_dec (start_lr a) 0) as [E | _]; [lra |].
  destruct (Rlt_dec (weight_decay a) 0) as [E | _]; [lra |].
  reflexivity.
Qed.

Lemma build_optimizer_fails (a : train_args Tensor) (s : state) :
  start_lr a < 0 \/ weight_decay a < 0 ->
  build_optimizer adam a s = (Raise ValueError, s).
Proof.
  intros Hbad. unfold build_optimizer, optim_adam.
  destruct (Rlt_dec (start_lr a) 0) as [_ | Hlr]; [reflexivity |].
  destruct (Rlt_dec (weight_decay a) 0) as [_ | Hwd]; [reflexivity |].
  lra.
Qed.

(** A negative learning rate or weight decay is the failure of [train]
    at [optim.Adam], with only the first line printed. *)
Lemma train_adam_error (m : model Params) (g : reader Tensor)
      (a : train_args Tensor) :
  start_lr a < 0 \/ weight_decay a < 0 ->
  train m g a =
  (Raise ValueError,
   State m (adam m (start_lr a) (weight_decay a)) (start_lr a) 0 0 0
         [(0%Z, PrintDevice)]).
Proof.
  intros Hbad.
  unfold Train.train, train_body, initial_state.
  unfold bind at 1, emit at 1. cbn [epoch log net opt lr last_epoch ticks].
  unfold bind at 1. rewrite (build_optimizer_fails a _ Hbad). reflexivity.
Qed.

(** *** The whole of [train] *)

Local Abbreviation test_reader_of g a :=
  (match test_reader a with None => g | Some r => r end).

Local Abbreviation epoch_loop g a gamma :=
  (for_each (py_range 1 (n_epoch a + 1))
            (train_epoch optimizer_step clock
                         (make_evaluator (force_factor a) mse_loss)
                         g (test_reader_of g a) (decay_steps a) gamma
                         (display_epoch a) (ckpt_file a))).

(** Either [train] raises before the loop, having printed no row and
    saved nothing, or it enters the loop with the initial learning rate
    and the row of epoch 0 printed. *)
Lemma train_cases (m : model Params) (g : reader Tensor) (a : train_args Tensor)
      (r : result (option (model Params))) (st : state) :
  train m g a = (r, st) ->
  ((exists x, r = Raise x) /\
   (forall k, epochs_of (of_kind k) (log st) = []) /\
   Forall (event_ok (make_evaluator (force_factor a) mse_loss)
                    (test_reader_of g a) (ckpt_file a)) (log st)) \/
  (exists gamma s0 r',
      resolved_rate a gamma /\
      lr s0 = start_lr a /\ last_epoch s0 = 0%Z /\
      (forall k, epochs_of (of_kind k) (log s0) =
                 match k with KRow => [0%Z] | _ => [] end) /\
      Forall (event_ok (make_evaluator (force_factor a) mse_loss)
                       (test_reader_of g a) (ckpt_file a)) (log s0) /\
      epoch_loop g a gamma s0 = (r', st) /\
      r = match r' with Ok _ => Ok None | Raise x => Raise x end).
Proof.
  assert (Hplain : forall (e : Z) (x : event Params),
             is_row x = false -> is_save x = false ->
             is_test_loss x = false ->
             event_ok (make_evaluator (force_factor a) mse_loss)
                      (test_reader_of g a) (ckpt_file a) (e, x)).
  { intros e x H1 H2 H3. unfold event_ok, well_stamped, reported_on.
    destruct x; cbn in *; try discriminate; split; exact I. }
  destruct (adam_arguments_dec a) as [[Hlr Hwd] | Hbad].
  2: { rewrite (train_adam_error m g a Hbad).
       intros H; injection H as <- <-. left.
       split; [eauto |].
       split; [intros k; destruct k; reflexivity |].
       cbn; repeat (apply Forall_cons || apply Forall_nil);
         apply Hplain; reflexivity. }
  unfold Train.train, train_body, initial_state, resolved_rate.
  unfold bind at 1, emit at 1. cbn [epoch log net opt lr last_epoch ticks].
  unfold bind at 1. rewrite (build_optimizer_ok a m _ _ _ _ Hlr Hwd).
  unfold bind at 1, resolve_decay_rate.
  destruct (stop_lr a) as [stop |].
  - unfold bind at 1, lift at 1.
    destruct (back_solve_decay_rate stop (start_lr a) (n_epoch a)
                                    (decay_steps a)) as [gamma | x] eqn:Hsolve.
    2: { intros H; injection H as <- <-. left.
         split; [eauto |].
         split; [intros k; destruct k; reflexivity |].
         cbn; repeat (apply Forall_cons || apply Forall_nil);
           apply Hplain; reflexivity. }
    unfold bind at 1, emit at 1, ret at 1.
    cbn [epoch log net opt lr last_epoch ticks].
    unfold bind at 1, emit at 1. cbn [epoch log net opt lr last_epoch ticks].
    unfold bind at 1, now at 1. cbn [epoch log net opt lr last_epoch ticks].
    unfold bind at 1, evaluate_all at 1. cbn [net].
    destruct (map_result _ (sample_all_batch g)) as [trn | x].
    2: { intros H; injection H as <- <-. left.
         split; [eauto |].
         split; [intros k; destruct k; reflexivity |].
         cbn; repeat (apply Forall_cons || apply Forall_nil);
           apply Hplain; reflexivity. }
    unfold bind at 1, evaluate_all at 1. cbn [net].
    destruct (map_result _ (sample_all_batch (test_reader_of g a)))
      as [tst | x] eqn:Htst.
    2: { intros H; injection H as <- <-. left.
         split; [eauto |].
         split; [intros k; destruct k; reflexivity |].
         cbn; repeat (apply Forall_cons || apply Forall_nil);
           apply Hplain; reflexivity. }
    unfold bind at 1, now at 1. cbn [epoch log net opt lr last_epoch ticks].
    unfold bind at 1, emit at 1. cbn [epoch log net opt lr last_epoch ticks].
    unfold bind at 1.
    match goal with
    | |- context [for_each _ _ ?s1] =>
        destruct (epoch_loop g a gamma s1) as [r' s'] eqn:Hloop
    end.
    intros H.
    assert (Hst : s' = st /\
                  r = match r' with Ok _ => Ok None | Raise x => Raise x end).
    { destruct r'; unfold ret in H; injection H as <- <-; split; reflexivity. }
    destruct Hst as [<- ->].
    right. exists gamma. eexists. exists r'.
    split; [reflexivity |].
    split; [| split; [| split; [| split; [| split;
      [exact Hloop | reflexivity]]]]]; try reflexivity.
    + intros k; destruct k; reflexivity.
    + cbn; repeat (apply Forall_cons || apply Forall_nil);
        try (apply Hplain; reflexivity).
      split; [reflexivity |]. cbn. eauto.
  - unfold ret at 1.
    unfold bind at 1, emit at 1. cbn [epoch log net opt lr last_epoch ticks].
    unfold bind at 1, now at 1. cbn [epoch log net opt lr last_epoch ticks].
    unfold bind at 1, evaluate_all at 1. cbn [net].
    destruct (map_result _ (sample_all_batch g)) as [trn | x].
    2: { intros H; injection H as <- <-. left.
         split; [eauto |].
         split; [intros k; destruct k; reflexivity |].
         cbn; repeat (apply Forall_cons || apply Forall_nil);
           apply Hplain; reflexivity. }
    unfold bind at 1, evaluate_all at 1. cbn [net].
    destruct (map_result _ (sample_all_batch (test_reader_of g a)))
      as [tst | x] eqn:Htst.
    2: { intros H; injection H as <- <-. left.
         split; [eauto |].
         split; [intros k; destruct k; reflexivity |].
         cbn; repeat (apply Forall_cons || apply Forall_nil);
           apply Hplain; reflexivity. }
    unfold bind at 1, now at 1. cbn [epoch log net opt lr last_epoch ticks].
    unfold bind at 1, emit at 1. cbn [epoch log net opt lr last_epoch ticks].
    unfold bind at 1.
    match goal with
    | |- context [for_each _ _ ?s1] =>
        destruct (epoch_loop g a (decay_rate a) s1) as [r' s'] eqn:Hloop
    end.
    intros H.
    assert (Hst : s' = st /\
                  r = match r' with Ok _ => Ok None | Raise x => Raise x end).
    { destruct r'; unfold ret in H; injection H as <- <-; split; reflexivity. }
    destruct Hst as [<- ->].
    right. exists (decay_rate a). eexists. exists r'.
    split; [reflexivity |].
    split; [| split; [| split; [| split; [| split;
      [exact Hloop | reflexivity]]]]]; try reflexivity.
    + intros k; destruct k; reflexivity.
    + cbn; repeat (apply Forall_cons || apply Forall_nil);
        try (apply Hplain; reflexivity).
      split; [reflexivity |]. cbn. eauto.
Qed.

(** In any run, every row and checkpoint is well stamped and every test
    loss comes from the test reader in use. *)
Lemma train_events_ok (m : model Params) (g : reader Tensor)
      (a : train_args Tensor) :
  Forall (event_ok (make_evaluator (force_factor a) mse_loss)
                   (test_reader_of g a) (ckpt_file a))
         (log (snd (train m g a))).
Proof.
  destruct (train m g a) as [r st] eqn:Hrun. cbn [snd].
  apply train_cases in Hrun.
  destruct Hrun as [[_ [_ Hst]] |
                    (gamma & s0 & r' & _ & _ & _ & _ & Hst & Hloop & _)].
  - exact Hst.
  - exact (epoch_loop_event_ok _ _ _ _ _ _ _ _ _ _ _ Hloop Hst).
Qed.

(** With a learning rate and a weight decay that are not negative, a
    decay rate, non-zero periods and well-formed samples, [train] runs
    to its end and returns [None]. *)
Lemma train_completes (m : model Params) (g : reader Tensor)
      (a : train_args Tensor) :
  0 <= start_lr a ->
  0 <= weight_decay a ->
  (forall stop, stop_lr a = Some stop ->
                exists gamma,
                  back_solve_decay_rate stop (start_lr a) (n_epoch a)
                                        (decay_steps a) = Ok gamma) ->
  decay_steps a <> 0%Z ->
  display_epoch a <> 0%Z ->
  forallb (sample_ok (force_factor a)) (batches g) = true ->
  forallb (sample_ok (force_factor a)) (sample_all_batch g) = true ->
  forallb (sample_ok (force_factor a))
          (sample_all_batch (test_reader_of g a)) = true ->
  fst (train m g a) = Ok None.
Proof.
  intros Hlr Hwd Hsolve Hstep Hd Hb Hg Ht.
  unfold Train.train, train_body, initial_state.
  unfold bind at 1, emit at 1. cbn [epoch log net opt lr last_epoch ticks].
  destruct (evaluate_all_total (force_factor a) m _ Hg) as [trn Htrn].
  destruct (evaluate_all_total (force_factor a) m _ Ht) as [tst Htst].
  unfold bind at 1. rewrite (build_optimizer_ok a m _ _ _ _ Hlr Hwd).
  unfold bind at 1, resolve_decay_rate.
  destruct (stop_lr a) as [stop |].
  - destruct (Hsolve stop eq_refl) as [gamma Hgamma].
    unfold bind at 1, lift at 1. rewrite Hgamma.
    unfold bind at 1, emit at 1, ret at 1.
    cbn [epoch log net opt lr last_epoch ticks].
    unfold bind at 1, emit at 1. cbn [epoch log net opt lr last_epoch ticks].
    unfold bind at 1, now at 1. cbn [epoch log net opt lr last_epoch ticks].
    unfold bind at 1, evaluate_all at 1. cbn [net]. rewrite Htrn.
    unfold bind at 1, evaluate_all at 1. cbn [net]. rewrite Htst.
    unfold bind at 1, now at 1. cbn [epoch log net opt lr last_epoch ticks].
    unfold bind at 1, emit at 1. cbn [epoch log net opt lr last_epoch ticks].
    unfold bind at 1.
    match goal with
    | |- context [for_each ?l _ ?s1] =>
        destruct (epoch_loop_total (force_factor a) g (test_reader_of g a)
                    (decay_steps a) gamma (display_epoch a) (ckpt_file a) l
                    Hb Ht Hstep Hd s1) as [s' Hloop]
    end.
    rewrite Hloop. reflexivity.
  - unfold ret at 1.
    unfold bind at 1, emit at 1. cbn [epoch log net opt lr last_epoch ticks].
    unfold bind at 1, now at 1. cbn [epoch log net opt lr last_epoch ticks].
    unfold bind at 1, evaluate_all at 1. cbn [net]. rewrite Htrn.
    unfold bind at 1, evaluate_all at 1. cbn [net]. rewrite Htst.
    unfold bind at 1, now at 1. cbn [epoch log net opt lr last_epoch ticks].
    unfold bind at 1, emit at 1. cbn [epoch log net opt lr last_epoch ticks].
    unfold bind at 1.
    match goal with
    | |- context [for_each ?l _ ?s1] =>
        destruct (epoch_loop_total (force_factor a) g (test_reader_of g a)
                    (decay_steps a) (decay_rate a) (display_epoch a)
                    (ckpt_file a) l Hb Ht Hstep Hd s1) as [s' Hloop]
    end.
    rewrite Hloop. reflexivity.
Qed.

(** Once the optimizer is built, a failure of the back-solve is the
    failure of [train], with nothing done but the first line printed. *)
Lemma train_back_solve_error (m : model Params) (g : reader Tensor)
      (a : train_args Tensor) (stop : R) (x : exn) :
  0 <= start_lr a ->
  0 <= weight_decay a ->
  stop_lr a = Some stop ->
  back_solve_decay_rate stop (start_lr a) (n_epoch a) (decay_steps a)
  = Raise x ->
  train m g a =
  (Raise x,
   State m (adam m (start_lr a) (weight_decay a)) (start_lr a) 0 0 0
         [(0%Z, PrintDevice)]).
Proof.
  intros Hlr Hwd Hstop Hsolve.
  unfold Train.train, train_body, initial_state.
  unfold bind at 1, emit at 1. cbn [epoch log net opt lr last_epoch ticks].
  unfold bind at 1. rewrite (build_optimizer_ok a m _ _ _ _ Hlr Hwd).
  unfold bind at 1, resolve_decay_rate. rewrite Hstop.
  unfold bind at 1, lift at 1. rewrite Hsolve. reflexivity.
Qed.

(** *** Ranges, multiples and names *)

Lemma in_py_range (lo hi e : Z) :
  In e (py_range lo hi) <-> (lo <= e < hi)%Z.
Proof.
  unfold py_range. rewrite in_map_iff. split.
  - intros (i & <- & Hi). apply in_seq in Hi. lia.
  - intros H. exists (Z.to_nat (e - lo)). split; [lia |].
    apply in_seq. lia.
Qed.

Lemma due_divide (d e : Z) :
  e <> 0%Z -> (due d e = true <-> (d | e)%Z).
Proof.
  intros He. unfold due, py_mod.
  destruct (d =? 0)%Z eqn:Hd.
  - apply Z.eqb_eq in Hd. subst d. split; [discriminate |].
    intros [q Hq]. lia.
  - apply Z.eqb_neq in Hd. rewrite Z.eqb_eq. apply Z.mod_divide. assumption.
Qed.

Lemma nonempty_iff (s : string) : nonempty s = true <-> s <> EmptyString.
Proof.
  destruct s; cbn; split; congruence.
Qed.


(** *** The display schedule *)


(** *** The return value *)


(** *** Back-solving the decay rate *)

Lemma back_solve_value (stop start : R) (n d : Z) :
  0 < start -> (0 < d <= n)%Z ->
  back_solve_decay_rate stop start n d =
  py_pow (stop / start) (1 / IZR (n / d)).
Proof.
  intros Hstart Hnd.
  assert (Hk : (1 <= n / d)%Z).
  { apply Z.div_le_lower_bound; lia. }
  assert (Hk' : 1 <= IZR (n / d)) by (apply IZR_le in Hk; exact Hk).
  unfold back_solve_decay_rate, rbind, py_truediv, py_floordiv.
  destruct (Req_dec_T start 0) as [E | _]; [lra |].
  destruct (d =? 0)%Z eqn:Hd; [apply Z.eqb_eq in Hd; lia |].
  destruct (Req_dec_T (IZR (n / d)) 0) as [E | _]; [lra |].
  reflexivity.
Qed.

Lemma back_solve_short (stop start : R) (n d : Z) :
  (0 <= n < d)%Z ->
  back_solve_decay_rate stop start n d = Raise ZeroDivisionError.
Proof.
  intros Hnd.
  unfold back_solve_decay_rate, rbind, py_truediv, py_floordiv.
  destruct (Req_dec_T start 0) as [_ | _]; [reflexivity |].
  destruct (d =? 0)%Z eqn:Hd; [reflexivity |].
  rewrite Z.div_small by assumption.
  destruct (Req_dec_T 0 0) as [_ | N]; [reflexivity | contradiction].
Qed.

Lemma root_power (x : R) (k : Z) :
  0 < x -> (1 <= k)%Z ->
  Rpower x (1 / IZR k) ^ Z.to_nat k = x.
Proof.
  intros Hx Hk.
  assert (Hk' : 1 <= IZR k) by (apply IZR_le in Hk; exact Hk).
  rewrite <- Rpower_pow by apply exp_pos.
  rewrite Rpower_mult, INR_IZR_INZ, Z2Nat.id by lia.
  replace (1 / IZR k * IZR k) with 1 by (field; lra).
  apply Rpower_1. assumption.
Qed.

(** The [k]-th root that [**] computes, for a base that is not negative. *)
Lemma py_pow_root (x : R) (k : Z) :
  0 <= x -> (1 <= k)%Z ->
  exists y, py_pow x (1 / IZR k) = Ok y /\ y ^ Z.to_nat k = x.
Proof.
  intros Hx Hk.
  assert (Hk' : 1 <= IZR k) by (apply IZR_le in Hk; exact Hk).
  assert (Hinv : 0 < 1 / IZR k).
  { apply Rdiv_lt_0_compat; lra. }
  unfold py_pow.
  destruct (Rlt_dec 0 x) as [Hpos | Hnpos].
  - eexists. split; [reflexivity |]. apply root_power; assumption.
  - assert (x = 0) by lra. subst x.
    destruct (Req_dec_T 0 0) as [_ | N]; [| contradiction].
    destruct (Rlt_dec (1 / IZR k) 0) as [E | _]; [lra |].
    destruct (Req_dec_T (1 / IZR k) 0) as [E | _]; [lra |].
    exists 0. split; [reflexivity |].
    apply pow_i. lia.
Qed.

Lemma length_py_range (lo hi : Z) :
  List.length (py_range lo hi) = Z.to_nat (hi - lo).
Proof.
  unfold py_range. rewrite length_map, length_seq. reflexivity.
Qed.

(** C3, as the code has it: with [start_lr > 0], [stop_lr >= 0], a
    weight decay that is not negative and at least one whole decay
    period ([0 < decay_steps <= n_epoch]), the decay
    rate is set to the value of
    [(stop_lr / start_lr) ** (1 / (n_epoch // decay_steps))], and
    [start_lr * decay_rate ^ (n_epoch // decay_steps)] is [stop_lr]: a run
    that completes has taken [n_epoch] scheduler steps and ends with the
    learning rate [stop_lr]. *)
Theorem decay_rate_reaches_stop_lr (m : model Params) (g : reader Tensor)
        (a : train_args Tensor) (stop : R) :
  stop_lr a = Some stop ->
  0 < start_lr a -> 0 <= stop ->
  0 <= weight_decay a ->
  (0 < decay_steps a <= n_epoch a)%Z ->
  display_epoch a <> 0%Z ->
  forallb (sample_ok (force_factor a)) (batches g) = true ->
  forallb (sample_ok (force_factor a)) (sample_all_batch g) = true ->
  forallb (sample_ok (force_factor a))
          (sample_all_batch (test_reader_of g a)) = true ->
  let k := (n_epoch a / decay_steps a)%Z in
  exists rate,
    py_pow (stop / start_lr a) (1 / IZR k) = Ok rate /\
    back_solve_decay_rate stop (start_lr a) (n_epoch a) (decay_steps a)
    = Ok rate /\
    start_lr a * rate ^ Z.to_nat k = stop /\
    fst (train m g a) = Ok None /\
    last_epoch (snd (train m g a)) = n_epoch a /\
    lr (snd (train m g a)) = stop.
Proof.
  intros Hstop Hstart Hpos Hwd Hnd Hd Hb Hg Ht k.
  assert (Hk : (1 <= k)%Z) by (apply Z.div_le_lower_bound; lia).
  assert (Hratio : 0 <= stop / start_lr a).
  { apply Rmult_le_pos; [assumption |].
    left. apply Rinv_0_lt_compat. assumption. }
  destruct (py_pow_root (stop / start_lr a) k Hratio Hk)
    as (rate & Hpow & Hroot).
  assert (Hsolve : back_solve_decay_rate stop (start_lr a) (n_epoch a)
                     (decay_steps a) = Ok rate).
  { rewrite back_solve_value by assumption. exact Hpow. }
  assert (Hreach : start_lr a * rate ^ Z.to_nat k = stop).
  { rewrite Hroot. field. lra. }
  assert (Hdone : fst (train m g a) = Ok None).
  { apply train_completes; try assumption; [lra | | lia].
    intros stop' E. rewrite Hstop in E. injection E as <-. eauto. }
  exists rate.
  split; [exact Hpow |]. split; [exact Hsolve |].
  split; [exact Hreach |]. split; [exact Hdone |].
  destruct (train m g a) as [r st] eqn:Hrun. cbn [fst snd] in *. subst r.
  apply train_cases in Hrun.
  destruct Hrun as [[[x Hx] _] |
                    (gamma & s0 & r' & Hrate & Hlr & Hle & _ & _ & Hloop & Hr)];
    [discriminate |].
  unfold resolved_rate in Hrate. rewrite Hstop, Hsolve in Hrate.
  injection Hrate as <-.
  destruct r' as [[] | x]; [| discriminate].
  apply (epoch_loop_lr _ _ _ _ (start_lr a)) in Hloop.
  - destruct Hloop as [Hle' Hlr']. rewrite length_py_range, Hle in Hle'.
    assert (Hn : last_epoch st = n_epoch a) by lia.
    split; [exact Hn |].
    rewrite Hlr', Hn. exact Hreach.
  - lia.
  - lia.
  - rewrite Hlr, Hle. unfold step_lr.
    rewrite Z.div_0_l by lia. cbn. ring.
Qed.

(** C9, as the code has it: with a learning rate and a weight decay that
    are not negative, [stop_lr] set and [0 <= n_epoch < decay_steps] the
    quotient [n_epoch // decay_steps] is 0 and [train] raises
    [ZeroDivisionError] at the back-solve: only the first line has been
    printed, no step of the optimizer or of the scheduler has been
    taken. *)
Theorem short_run_raises_zero_division (m : model Params) (g : reader Tensor)
        (a : train_args Tensor) (stop : R) :
  0 <= start_lr a ->
  0 <= weight_decay a ->
  stop_lr a = Some stop ->
  (0 <= n_epoch a < decay_steps a)%Z ->
  py_floordiv (n_epoch a) (decay_steps a) = Ok 0%Z /\
  train m g a =
  (Raise ZeroDivisionError,
   State m (adam m (start_lr a) (weight_decay a)) (start_lr a) 0 0 0
         [(0%Z, PrintDevice)]).
Proof.
  intros Hlr Hwd Hstop Hnd. split.
  - unfold py_floordiv.
    destruct (decay_steps a =? 0)%Z eqn:Hd; [apply Z.eqb_eq in Hd; lia |].
    rewrite Z.div_small by assumption. reflexivity.
  - apply train_back_solve_error with (stop := stop); try assumption.
    apply back_solve_short. assumption.
Qed.

(** *** The default test reader *)

(** C10: [train] without a test reader is [train] with the training
    reader as test reader; every test loss it reports, in a row or on its
    own, is the mean of the evaluator over
    [g_reader.sample_all_batch()]. *)
Theorem default_test_reader_is_training_reader
        (m : model Params) (g : reader Tensor)
        (n : Z) (ff start : R) (step : Z) (rate : R) (stop : option R)
        (wd : R) (d : Z) (ckpt : string) :
  train m g (TrainArgs n None ff start step rate stop wd d ckpt) =
  train m g (TrainArgs n (Some g) ff start step rate stop wd d ckpt) /\
  Forall (reported_on (make_evaluator ff mse_loss) g)
         (log (snd (train m g
                          (TrainArgs n None ff start step rate stop wd d ckpt)))).
Proof.
  split; [reflexivity |].
  eapply Forall_impl;
    [| apply (train_events_ok
                m g (TrainArgs n None ff start step rate stop wd d ckpt))].
  intros x [_ Hx]. exact Hx.
Qed.

End TrainerFacts.

(** * Runs of the concrete trainer *)

Section TrainerRuns.

Import Train TrainExample.
Open Scope R_scope.

Lemma sample_ok_energy_only (ff a b : R) (rest : list R) :
  ff <= 0 -> sample_ok ff (a :: b :: rest) = true.
Proof.
  intros H. unfold sample_ok. rewrite positive_false by assumption.
  reflexivity.
Qed.

Lemma reader0_ok : forallb (sample_ok 0) [[2; 1]] = true.
Proof.
  cbn [forallb]. rewrite sample_ok_energy_only by lra. reflexivity.
Qed.

(** [args2] on [reader0] runs to its end. *)
Lemma train_args2_completes :
  fst (TrainExample.train model0 reader0 args2) = Ok None.
Proof.
  apply train_completes; cbn;
    try discriminate; try apply reader0_ok; lra.
Qed.

Lemma train_args_quiet_completes :
  fst (TrainExample.train model0 reader0 args_quiet) = Ok None.
Proof.
  apply train_completes; cbn;
    try discriminate; try apply reader0_ok; lra.
Qed.

(** The back-solve of [args_negative] has a value. *)
Lemma back_solve_negative :
  back_solve_decay_rate 0.0001 0.001 (-1) 100 =
  Ok (Rpower (0.0001 / 0.001) (1 / -1)).
Proof.
  unfold back_solve_decay_rate, rbind, py_truediv, py_floordiv, py_pow.
  destruct (Req_dec_T 0.001 0) as [E | _]; [lra |].
  cbn [Z.eqb].
  change (-1 / 100)%Z with (-1)%Z.
  destruct (Req_dec_T (-1) 0) as [E | _]; [lra |].
  destruct (Rlt_dec 0 (0.0001 / 0.001)) as [_ | N]; [reflexivity |].
  exfalso. apply N. lra.
Qed.

Lemma train_args_negative_completes :
  fst (TrainExample.train model0 reader0 args_negative) = Ok None.
Proof.
  apply train_completes; cbn -[back_solve_decay_rate];
    try discriminate; try apply reader0_ok; try lra.
  intros stop E. injection E as <-. rewrite back_solve_negative. eauto.
Qed.

(** The evaluator on an energy sample and on a sample with forces. *)
Lemma evaluator_loss_witness :
  TrainExample.make_evaluator 0 mse_loss model0 [2; 1] =
  Ok (mse_loss (forward model0 1) 2) /\
  TrainExample.make_evaluator 1 mse_loss model0 [2; 1; 0; 1] =
  Ok (mse_loss (forward model0 1) 2 +
      1 * mse_loss
            (calc_force autograd_grad einsum Ropp (forward model0) 1 1) 0).
Proof.
  split.
  - apply (proj1 (evaluator_loss R R forward autograd_grad einsum Ropp
                                 mse_loss 0 model0 2 1 0 1 [])).
    reflexivity.
  - apply (proj2 (evaluator_loss R R forward autograd_grad einsum Ropp
                                 mse_loss 1 model0 2 1 0 1 [])).
    lra.
Defined.

(** Preprocessing twice, the second time on another reader with the same
    statistics. *)
Lemma preprocess_idempotent_witness :
  preprocess (preprocess model0 reader0 default_preprocess_args)
             reader0' default_preprocess_args =
  preprocess model0 reader0 default_preprocess_args.
Proof.
  apply (preprocess_idempotent R R model0 reader0 reader0'
                               default_preprocess_args).
  - reflexivity.
  - intros shift scale ridge. reflexivity.
Defined.




(** C3 as stated fails: with [stop_lr] given and fewer epochs than one
    decay period, no decay rate is set; [train] raises and the learning
    rate is still [start_lr]. *)
Lemma decay_rate_counterexample :
  stop_lr args_short = Some 0.0001 /\
  back_solve_decay_rate 0.0001 (start_lr args_short) (n_epoch args_short)
                        (decay_steps args_short) = Raise ZeroDivisionError /\
  fst (TrainExample.train model0 reader0 args_short)
  = Raise ZeroDivisionError /\
  lr (snd (TrainExample.train model0 reader0 args_short)) <> 0.0001.
Proof.
  assert (Hsolve : back_solve_decay_rate 0.0001 (start_lr args_short)
                     (n_epoch args_short) (decay_steps args_short)
                   = Raise ZeroDivisionError).
  { apply back_solve_short. cbn. lia. }
  assert (Hlr : 0 <= start_lr args_short) by (cbn; lra).
  assert (Hwd : 0 <= weight_decay args_short) by (cbn; lra).
  assert (Hrun := train_back_solve_error
                    R R unit forward autograd_grad einsum Ropp mse_loss adam
                    optimizer_step clock model0 reader0 args_short 0.0001
                    ZeroDivisionError Hlr Hwd eq_refl Hsolve).
  fold TrainExample.train in Hrun.
  split; [reflexivity |]. split; [exact Hsolve |].
  rewrite Hrun. cbn. split; [reflexivity | lra].
Qed.

(** From rate 1 to the target 1/4 in two decay periods. *)
Lemma decay_rate_reaches_stop_lr_witness :
  exists rate,
    py_pow (1 / 4 / start_lr args_target)
           (1 / IZR (n_epoch args_target / decay_steps args_target)) = Ok rate /\
    back_solve_decay_rate (1 / 4) (start_lr args_target) (n_epoch args_target)
                          (decay_steps args_target) = Ok rate /\
    start_lr args_target *
    rate ^ Z.to_nat (n_epoch args_target / decay_steps args_target) = 1 / 4 /\
    fst (TrainExample.train model0 reader0 args_target) = Ok None /\
    last_epoch (snd (TrainExample.train model0 reader0 args_target))
    = n_epoch args_target /\
    lr (snd (TrainExample.train model0 reader0 args_target)) = 1 / 4.
Proof.
  apply (decay_rate_reaches_stop_lr
           R R unit forward autograd_grad einsum Ropp mse_loss adam
           optimizer_step clock model0 reader0 args_target (1 / 4)).
  - reflexivity.
  - cbn. lra.
  - lra.
  - cbn. lra.
  - cbn. lia.
  - cbn. discriminate.
  - apply reader0_ok.
  - apply reader0_ok.
  - apply reader0_ok.
Defined.

(** C9 as stated fails: with [n_epoch = -1 < decay_steps = 100] the
    quotient is [-1], not 0, and [train] returns without raising. *)
Lemma short_run_counterexample :
  stop_lr args_negative = Some 0.0001 /\
  (n_epoch args_negative < decay_steps args_negative)%Z /\
  py_floordiv (n_epoch args_negative) (decay_steps args_negative)
  = Ok (-1)%Z /\
  fst (TrainExample.train model0 reader0 args_negative) = Ok None.
Proof.
  split; [reflexivity |]. split; [cbn; lia |]. split; [reflexivity |].
  exact train_args_negative_completes.
Qed.

(** Fifty epochs with a decay period of a hundred. *)
Lemma short_run_raises_zero_division_witness :
  fst (TrainExample.train model0 reader0 args_short)
  = Raise ZeroDivisionError.
Proof.
  unfold TrainExample.train.
  rewrite (proj2 (short_run_raises_zero_division
                    R R unit forward autograd_grad einsum Ropp mse_loss adam
                    optimizer_step clock model0 reader0 args_short 0.0001
                    ltac:(cbn; lra) ltac:(cbn; lra)
                    eq_refl ltac:(cbn; lia))).
  reflexivity.
Defined.

End TrainerRuns.

(** * More on the entry point *)

Section IterateMore.

Variables Config Workflow World : Type.
Variable record_file : Workflow -> string.
Variable path_exists : World -> string -> bool.
Variable make_iterate : Config -> World -> result Workflow * World.
Variable wf_run : Workflow -> World -> result unit * World.
Variable wf_restart : Workflow -> World -> result unit * World.

Local Abbreviation main :=
  (Iterate.main record_file path_exists make_iterate wf_run wf_restart).

(** The outcome of [main] on a built workflow is the outcome of the
    method it calls: an exception of [restart] or [run] is not caught,
    and the world is left as that method left it. *)
Theorem main_outcome_is_stage_outcome
        (cfg : Config) (w0 w1 : World) (it : Workflow) :
  make_iterate cfg w0 = (Ok it, w1) ->
  let stage := if path_exists w1 (record_file it)
               then wf_restart else wf_run in
  fst (main cfg (Iterate.boot w0)) = fst (stage it w1) /\
  Iterate.world (snd (main cfg (Iterate.boot w0))) = snd (stage it w1).
Proof.
  intros Hbuild stage. subst stage.
  destruct (main_run_shape _ _ _ record_file path_exists make_iterate
                           wf_run wf_restart cfg w0)
    as [(e & w & Hb & _) | [(it' & w & Hb & Hrec & Hrun) |
                            (it' & w & Hb & Hrec & Hrun)]];
    rewrite Hbuild in Hb; try discriminate;
    injection Hb as <- <-; rewrite Hrec, Hrun; split; reflexivity.
Qed.

(** Whatever the configuration and the world, [main] calls
    [make_iterate] first, makes at most three calls, never calls both
    [restart] and [run], and calls one of them exactly when
    [make_iterate] returned; its whole outcome is that of
    [make_iterate] when it raises, and otherwise that of [restart] or of
    [run] on the built workflow, by the record file. *)
Theorem main_never_calls_both (cfg : Config) (w0 : World) :
  let cs := Iterate.calls (snd (main cfg (Iterate.boot w0))) in
  hd_error cs = Some (Iterate.CallMakeIterate cfg) /\
  (List.length cs <= 3)%nat /\
  (Iterate.count Iterate.is_restart cs +
   Iterate.count Iterate.is_run cs <= 1)%nat /\
  ((Iterate.count Iterate.is_restart cs +
    Iterate.count Iterate.is_run cs = 1)%nat <->
   exists it, fst (make_iterate cfg w0) = Ok it) /\
  main cfg (Iterate.boot w0) =
  match make_iterate cfg w0 with
  | (Raise e, w1) =>
      (Raise e, Iterate.Machine w1 [Iterate.CallMakeIterate cfg])
  | (Ok it, w1) =>
      if path_exists w1 (record_file it)
      then (fst (wf_restart it w1),
            Iterate.Machine (snd (wf_restart it w1))
                            [Iterate.CallMakeIterate cfg;
                             Iterate.CallPathExists (record_file it);
                             Iterate.CallRestart it])
      else (fst (wf_run it w1),
            Iterate.Machine (snd (wf_run it w1))
                            [Iterate.CallMakeIterate cfg;
                             Iterate.CallPathExists (record_file it);
                             Iterate.CallRun it])
  end.
Proof.
  destruct (main_run_shape _ _ _ record_file path_exists make_iterate
                           wf_run wf_restart cfg w0)
    as [(e & w & Hb & Hrun) | [(it & w & Hb & Hrec & Hrun) |
                               (it & w & Hb & Hrec & Hrun)]];
    rewrite Hrun, Hb, ?Hrec; cbn;
    (split; [reflexivity |]); (split; [lia |]); (split; [lia |]);
    (split; [| reflexivity]).
  - split; [discriminate |]. intros [it H]. discriminate.
  - split; [eauto | reflexivity].
  - split; [eauto | reflexivity].
Qed.

End IterateMore.

(** A fresh run whose [run] succeeds, in a working directory without a
    record. *)
Lemma main_outcome_is_stage_outcome_witness :
  fst (IterateExample.main "work" (Iterate.boot ["work/share"%string])) =
  Ok tt /\
  Iterate.world
    (snd (IterateExample.main "work" (Iterate.boot ["work/share"%string]))) =
  ["work/share"; "work/RECORD"]%string.
Proof.
  apply (main_outcome_is_stage_outcome
           string string IterateExample.world
           IterateExample.record_file IterateExample.path_exists
           IterateExample.make_iterate IterateExample.wf_run
           IterateExample.wf_restart
           "work"%string ["work/share"%string] ["work/share"%string]
           "work/RECORD"%string).
  reflexivity.
Defined.

(** * More on the trainer *)

Section TrainerMore.

Import Train.
Open Scope R_scope.

Variables Tensor Params Optimizer : Type.
Variable forward : model Params -> Tensor -> Tensor.
Variable autograd_grad : (Tensor -> Tensor) -> Tensor -> Tensor.
Variable einsum : string -> Tensor -> Tensor -> Tensor.
Variable tneg : Tensor -> Tensor.
Variable mse_loss : Tensor -> Tensor -> R.
Variable adam : model Params -> R -> R -> Optimizer.
Variable optimizer_step :
  Optimizer -> R -> (model Params -> result R) -> model Params
  -> model Params * Optimizer.
Variable clock : nat -> R.

Local Abbreviation make_evaluator :=
  (Train.make_evaluator forward autograd_grad einsum tneg).
Local Abbreviation train :=
  (Train.train forward autograd_grad einsum tneg mse_loss
               adam optimizer_step clock).
Local Abbreviation state := (Train.state Params Optimizer).
Local Abbreviation test_reader_of g a :=
  (match test_reader a with None => g | Some r => r end).

(** *** The shape of a sample *)

(** The evaluator returns a loss exactly on the samples it can unpack:
    at least two tensors, and exactly four when [force_factor > 0]; on
    every other sample it raises [ValueError], whatever the model. *)
Theorem evaluator_succeeds_iff_unpackable
        (ff : R) (loss_fn : Tensor -> Tensor -> R)
        (m : model Params) (smp : sample Tensor) :
  ((exists v, make_evaluator ff loss_fn m smp = Ok v) <->
   (2 <= List.length smp)%nat /\ (0 < ff -> List.length smp = 4%nat)) /\
  ((forall v, make_evaluator ff loss_fn m smp <> Ok v) ->
   make_evaluator ff loss_fn m smp = Raise ValueError).
Proof.
  unfold Train.make_evaluator.
  destruct smp as [| e_label [| eig force_sample]].
  - split; [| reflexivity].
    split; [intros [v H]; discriminate | cbn; lia].
  - split; [| reflexivity].
    split; [intros [v H]; discriminate | cbn; lia].
  - unfold positive. destruct (Rlt_dec 0 ff) as [Hpos | Hneg].
    + destruct force_sample as [| f_label [| gvx [| x rest]]].
      * split; [| reflexivity].
        split; [intros [v H]; discriminate |].
        intros [_ H]. specialize (H Hpos). discriminate.
      * split; [| reflexivity].
        split; [intros [v H]; discriminate |].
        intros [_ H]. specialize (H Hpos). discriminate.
      * split; [| intros H; exfalso; eapply H; reflexivity].
        split; [intros _; cbn; split; [lia | reflexivity] | eauto].
      * split; [| reflexivity].
        split; [intros [v H]; discriminate |].
        intros [_ H]. specialize (H Hpos). discriminate.
    + split; [| intros H; exfalso; eapply H; reflexivity].
      split; [intros _; cbn; split; [lia | intros; lra] | eauto].
Qed.

(** With a [force_factor] that is not positive -- zero or negative -- the
    force term is switched off: the loss is the energy loss alone, and
    neither the value of [force_factor] nor any further tensor of the
    sample enters it. *)
Theorem evaluator_ignores_force_when_off
        (ff : R) (loss_fn : Tensor -> Tensor -> R) (m : model Params)
        (e_label eig : Tensor) (rest : list Tensor) :
  ff <= 0 ->
  make_evaluator ff loss_fn m (e_label :: eig :: rest) =
  make_evaluator 0 loss_fn m [e_label; eig] /\
  make_evaluator ff loss_fn m (e_label :: eig :: rest) =
  Ok (loss_fn (forward m eig) e_label).
Proof.
  intros Hff. unfold Train.make_evaluator.
  rewrite (positive_false ff Hff), (positive_false 0 (Rle_refl 0)).
  split; reflexivity.
Qed.

(** *** What preprocessing touches *)

(** [preprocess] never changes the parameters of the network; with
    [prefit] off it leaves the prefit layer alone; with [preshift] and
    [prescale] both off it leaves the normalization alone. *)
Theorem preprocess_leaves_alone
        (m : model Params) (r : reader Tensor) (a : preprocess_args) :
  params (preprocess m r a) = params m /\
  (prefit a = false ->
   prefit_weight (preprocess m r a) = prefit_weight m /\
   prefit_bias (preprocess m r a) = prefit_bias m /\
   prefit_trainable (preprocess m r a) = prefit_trainable m) /\
  (preshift a = false -> prescale a = false ->
   input_shift (preprocess m r a) = input_shift m /\
   input_scale (preprocess m r a) = input_scale m).
Proof.
  destruct a as [psh psc psq clip pf ridge tr].
  destruct m as [p sh sc w b t].
  unfold preprocess; cbn [Train.preshift Train.prescale Train.prescale_sqrt
    Train.prescale_clip Train.prefit Train.prefit_ridge
    Train.prefit_trainable_arg].
  destruct (compute_data_stat r) as [davg dstd].
  destruct psh, psc, pf;
    unfold set_prefitting, set_normalization;
    cbn -[truthy np_clip np_sqrt];
    try match goal with
        | |- context [compute_prefitting r ?s ?c ?x] =>
            destruct (compute_prefitting r s c x) as [w1 b1]
        end;
    cbn -[truthy np_clip np_sqrt];
    repeat split; intros; try discriminate; reflexivity.
Qed.

(** With [prescale] on, the scale stored in the model is the standard
    deviation of the data, after the square root if [prescale_sqrt] and
    raised to [prescale_clip] from below if that is not zero: with a
    non-zero [prescale_clip] no entry of the scale is below it, and the
    scale has one entry for each entry of the standard deviation. *)
Theorem preprocess_scale_is_clipped
        (m : model Params) (r : reader Tensor) (a : preprocess_args) :
  prescale a = true ->
  List.length (input_scale (preprocess m r a)) =
  List.length (snd (compute_data_stat r)) /\
  (prescale_clip a <> 0 ->
   Forall (fun x => prescale_clip a <= x) (input_scale (preprocess m r a))).
Proof.
  intros Hsc.
  destruct a as [psh psc psq clip pf ridge tr].
  destruct m as [p sh sc w b t].
  cbn in Hsc. subst psc.
  unfold preprocess; cbn [Train.preshift Train.prescale Train.prescale_sqrt
    Train.prescale_clip Train.prefit Train.prefit_ridge
    Train.prefit_trainable_arg].
  rewrite orb_true_r.
  destruct (compute_data_stat r) as [davg dstd]. cbn [snd].
  destruct psh, pf;
    unfold set_prefitting, set_normalization;
    cbn -[truthy np_clip np_sqrt];
    try match goal with
        | |- context [compute_prefitting r ?s ?c ?x] =>
            destruct (compute_prefitting r s c x) as [w1 b1]
        end;
    cbn -[truthy np_clip np_sqrt];
    (split;
     [ destruct (truthy clip), psq; unfold np_clip, np_sqrt;
       rewrite ?length_map; reflexivity
     | intros Hclip; unfold truthy;
       destruct (Req_dec_T clip 0) as [E | _]; [contradiction |];
       unfold np_clip; apply Forall_forall; intros x Hx;
       apply in_map_iff in Hx; destruct Hx as (y & <- & _);
       apply Rmax_l ]).
Qed.

(** With [prefit] on, the prefit layer stored in the model is the one
    [compute_prefitting] gives for the normalization the model ends up
    with -- the new one where [preshift] or [prescale] set it, the old
    one otherwise -- and for [prefit_ridge]. *)
Theorem preprocess_prefit_matches_normalization
        (m : model Params) (r : reader Tensor) (a : preprocess_args) :
  prefit a = true ->
  (prefit_weight (preprocess m r a), prefit_bias (preprocess m r a)) =
  compute_prefitting r (input_shift (preprocess m r a))
                     (input_scale (preprocess m r a)) (prefit_ridge a) /\
  prefit_trainable (preprocess m r a) = prefit_trainable_arg a.
Proof.
  intros Hpf.
  destruct a as [psh psc psq clip pf ridge tr].
  destruct m as [p sh sc w b t].
  cbn in Hpf. subst pf.
  unfold preprocess; cbn [Train.preshift Train.prescale Train.prescale_sqrt
    Train.prescale_clip Train.prefit Train.prefit_ridge
    Train.prefit_trainable_arg].
  destruct (compute_data_stat r) as [davg dstd].
  destruct psh, psc;
    unfold set_prefitting, set_normalization;
    cbn -[truthy np_clip np_sqrt];
    match goal with
    | |- context [compute_prefitting r ?s ?c ?x] =>
        destruct (compute_prefitting r s c x) as [w1 b1] eqn:Efit
    end;
    cbn -[truthy np_clip np_sqrt];
    rewrite ?Efit; split; reflexivity.
Qed.

(** *** When the back-solve divides by zero *)

(** The back-solve raises [ZeroDivisionError] when [start_lr] is zero
    (at [stop_lr / start_lr]), when [decay_steps] is zero (at
    [n_epoch // decay_steps]) and when [n_epoch // decay_steps] is zero
    (at [1 / (n_epoch // decay_steps)]): three divisions by a zero that
    the arguments hold exactly, before any rounding. *)
Theorem back_solve_divides_by_zero (stop start : R) (n d : Z) :
  start = 0 \/ d = 0%Z \/ (n / d = 0)%Z ->
  back_solve_decay_rate stop start n d = Raise ZeroDivisionError.
Proof.
  intros H.
  unfold back_solve_decay_rate, rbind, py_truediv, py_floordiv.
  destruct (Req_dec_T start 0) as [Hs | Hs]; [reflexivity |].
  destruct (d =? 0)%Z eqn:Hd; [reflexivity |].
  apply Z.eqb_neq in Hd.
  destruct (Req_dec_T (IZR (n / d)) 0) as [Hk | Hk]; [reflexivity |].
  exfalso. destruct H as [H | [H | H]]; try contradiction.
  apply Hk. rewrite H. reflexivity.
Qed.

(** *** The loop and its ranges *)

Local Abbreviation epoch_loop g a gamma :=
  (for_each (py_range 1 (n_epoch a + 1))
            (train_epoch optimizer_step clock
                         (make_evaluator (force_factor a) mse_loss)
                         g (test_reader_of g a) (decay_steps a) gamma
                         (display_epoch a) (ckpt_file a))).

Lemma for_each_app (S A : Type) (body : A -> M S unit) (l1 l2 : list A) (s : S) :
  for_each (l1 ++ l2) body s =
  match for_each l1 body s with
  | (Ok _, s1) => for_each l2 body s1
  | (Raise e, s1) => (Raise e, s1)
  end.
Proof.
  revert s. induction l1 as [| x l1 IH]; intros s.
  - reflexivity.
  - cbn [app for_each]. unfold bind.
    destruct (body x s) as [[[] | e] s1]; [apply IH | reflexivity].
Qed.

Lemma py_range_empty (lo hi : Z) : (hi <= lo)%Z -> py_range lo hi = [].
Proof.
  intros H. unfold py_range.
  replace (Z.to_nat (hi - lo)) with 0%nat by lia. reflexivity.
Qed.

Lemma py_range_snoc (lo hi : Z) :
  (lo <= hi)%Z -> py_range lo (hi + 1) = py_range lo hi ++ [hi].
Proof.
  intros H. unfold py_range.
  replace (Z.to_nat (hi + 1 - lo)) with (S (Z.to_nat (hi - lo))) by lia.
  rewrite seq_S, map_app. cbn [map Nat.add]. f_equal. f_equal. lia.
Qed.

Lemma py_range_cons (lo hi : Z) :
  (lo < hi)%Z -> py_range lo hi = lo :: py_range (lo + 1) hi.
Proof.
  intros H. unfold py_range.
  replace (Z.to_nat (hi - lo)) with (S (Z.to_nat (hi - (lo + 1)))) by lia.
  cbn [seq map]. f_equal; [lia |].
  rewrite <- seq_shift, map_map. apply map_ext. intros i. lia.
Qed.

Lemma py_range_consecutive (lo hi : Z) : consecutive lo (py_range lo hi).
Proof.
  unfold py_range. generalize (Z.to_nat (hi - lo)) as k.
  assert (H : forall k a,
             consecutive (lo + Z.of_nat a)
                         (map (fun i => (lo + Z.of_nat i)%Z) (seq a k))).
  { induction k as [| k IH]; intros a; cbn [seq map consecutive].
    - exact I.
    - split; [reflexivity |].
      replace (lo + Z.of_nat a + 1)%Z with (lo + Z.of_nat (S a))%Z by lia.
      apply IH. }
  intros k. specialize (H k 0%nat).
  replace (lo + Z.of_nat 0)%Z with lo in H by lia. exact H.
Qed.

(** [train] up to the loop: with a decay rate and losses for all the
    batches of both readers, the rest of [train] is the loop, entered
    in the state [loop_entry]. *)
Lemma train_enters_loop (m : model Params) (g : reader Tensor)
      (a : train_args Tensor) (gamma : R) (trn tst : list R) :
  0 <= start_lr a ->
  0 <= weight_decay a ->
  resolved_rate a gamma ->
  map_result (make_evaluator (force_factor a) mse_loss m)
             (sample_all_batch g) = Ok trn ->
  map_result (make_evaluator (force_factor a) mse_loss m)
             (sample_all_batch (test_reader_of g a)) = Ok tst ->
  train m g a =
  match epoch_loop g a gamma (loop_entry adam clock m a gamma trn tst) with
  | (Ok _, st) => (Ok None, st)
  | (Raise e, st) => (Raise e, st)
  end.
Proof.
  intros Hlr Hwd Hrate Htrn Htst.
  unfold Train.train, train_body, initial_state, loop_entry, prelude_log.
  unfold resolved_rate in Hrate.
  unfold bind at 1, emit at 1. cbn [epoch log net opt lr last_epoch ticks].
  unfold bind at 1. rewrite (build_optimizer_ok _ _ _ adam a m _ _ _ _ Hlr Hwd).
  unfold bind at 1, resolve_decay_rate.
  destruct (stop_lr a) as [stop |].
  - unfold bind at 1, lift at 1. rewrite Hrate.
    unfold bind at 1, emit at 1, ret at 1.
    cbn [epoch log net opt lr last_epoch ticks].
    unfold bind at 1, emit at 1. cbn [epoch log net opt lr last_epoch ticks].
    unfold bind at 1, now at 1. cbn [epoch log net opt lr last_epoch ticks].
    unfold bind at 1, evaluate_all at 1. cbn [net]. rewrite Htrn.
    unfold bind at 1, evaluate_all at 1. cbn [net]. rewrite Htst.
    unfold bind at 1, now at 1. cbn [epoch log net opt lr last_epoch ticks].
    unfold bind at 1, emit at 1. cbn [epoch log net opt lr last_epoch ticks].
    unfold bind at 1. cbn [app].
    match goal with
    | |- context [for_each ?l ?b ?s1] => destruct (for_each l b s1) as [[[] | e] st]
    end; reflexivity.
  - subst gamma. unfold ret at 1.
    unfold bind at 1, emit at 1. cbn [epoch log net opt lr last_epoch ticks].
    unfold bind at 1, now at 1. cbn [epoch log net opt lr last_epoch ticks].
    unfold bind at 1, evaluate_all at 1. cbn [net]. rewrite Htrn.
    unfold bind at 1, evaluate_all at 1. cbn [net]. rewrite Htst.
    unfold bind at 1, now at 1. cbn [epoch log net opt lr last_epoch ticks].
    unfold bind at 1, emit at 1. cbn [epoch log net opt lr last_epoch ticks].
    unfold bind at 1. cbn [app].
    match goal with
    | |- context [for_each ?l ?b ?s1] => destruct (for_each l b s1) as [[[] | e] st]
    end; reflexivity.
Qed.

(** *** Counting events *)

Local Abbreviation count_opt := (count_events (Params := Params) is_optimizer_step).
Local Abbreviation count_sched := (count_events (Params := Params) is_scheduler_step).

Lemma count_events_app (p : event Params -> bool)
      (l1 l2 : list (Z * event Params)) :
  count_events p (l1 ++ l2) = (count_events p l1 + count_events p l2)%nat.
Proof. unfold count_events. rewrite filter_app, length_app. reflexivity. Qed.

Lemma count_events_all (p : event Params -> bool)
      (l : list (Z * event Params)) :
  Forall (fun x => p (snd x) = true) l -> count_events p l = List.length l.
Proof.
  unfold count_events. induction 1 as [| x l Hx _ IH]; [reflexivity |].
  cbn [filter]. rewrite Hx. cbn [List.length]. rewrite IH. reflexivity.
Qed.

Lemma count_events_none (p : event Params -> bool)
      (l : list (Z * event Params)) :
  Forall (fun x => p (snd x) = false) l -> count_events p l = 0%nat.
Proof.
  unfold count_events. induction 1 as [| x l Hx _ IH]; [reflexivity |].
  cbn [filter]. rewrite Hx. exact IH.
Qed.

(** One pass takes one optimizer step for each batch it gets through. *)
Lemma train_pass_steps (ev : model Params -> sample Tensor -> result R)
      (l : list (sample Tensor)) :
  forall (s s' : state) (r : result (list R)),
    map_m (train_step optimizer_step ev) l s = (r, s') ->
    exists evs,
      log s' = log s ++ evs /\
      Forall (fun x => is_optimizer_step (snd x) = true) evs /\
      (forall ll, r = Ok ll -> List.length evs = List.length l).
Proof.
  induction l as [| smp l IH]; intros s s' r H.
  - cbn in H. injection H as <- <-. exists [].
    rewrite app_nil_r.
    split; [reflexivity |]. split; [constructor |]. reflexivity.
  - cbn [map_m] in H. unfold bind at 1 in H.
    unfold train_step at 1 in H. unfold bind at 1 in H.
    unfold evaluate at 1 in H.
    destruct (ev (net s) smp) as [loss | e].
    + unfold bind at 1 in H. unfold backward_and_step at 1 in H.
      destruct (optimizer_step (opt s) (lr s) (fun m => ev m smp) (net s))
        as [m' o'].
      cbn [ret] in H. unfold bind at 1 in H.
      match type of H with
      | context [map_m _ l ?s1] =>
          destruct (map_m (train_step optimizer_step ev) l s1)
            as [[ys | e] s2] eqn:Hrest;
          apply IH in Hrest; cbn [log] in Hrest;
          destruct Hrest as (evs & Hlog & Hall & Hlen)
      end.
      * cbn in H. injection H as <- <-.
        exists ((epoch s, OptimizerStep loss) :: evs).
        rewrite Hlog, <- app_assoc. split; [reflexivity |].
        split; [constructor; [reflexivity | assumption] |].
        intros ll _. cbn [List.length]. f_equal. eapply Hlen. reflexivity.
      * injection H as <- <-.
        exists ((epoch s, OptimizerStep loss) :: evs).
        rewrite Hlog, <- app_assoc. split; [reflexivity |].
        split; [constructor; [reflexivity | assumption] |].
        intros ll E. discriminate.
    + injection H as <- <-. exists []. rewrite app_nil_r.
      split; [reflexivity |]. split; [constructor |].
      intros ll E; discriminate.
Qed.

(** The display block takes no step and changes neither the model nor
    the learning rate nor the epoch counter; when it saves, the
    checkpoint of the model is the last thing it does. *)
Lemma display_frame (ev : model Params -> sample Tensor -> result R)
      (tst : reader Tensor) (ckpt : string) (e : Z) (ll : list R) (tic : R)
      (s s' : state) (r : result unit) :
  display clock ev tst ckpt e ll tic s = (r, s') ->
  net s' = net s /\ lr s' = lr s /\ last_epoch s' = last_epoch s /\
  count_opt (log s') = count_opt (log s) /\
  count_sched (log s') = count_sched (log s) /\
  (r = Ok tt -> nonempty ckpt = true ->
   exists pre, log s' = pre ++ [(epoch s, SaveModel ckpt (net s'))]).
Proof.
  unfold display, bind, emit, now, evaluate_all, get_last_lr, save, ret.
  cbn.
  destruct (map_result (ev (net s)) (sample_all_batch tst)) as [tl | x];
    [destruct (nonempty ckpt) |];
    intros H; injection H as <- <-; cbn [net lr last_epoch log epoch];
    rewrite ?count_events_app; cbn;
    (split; [reflexivity |]); (split; [reflexivity |]);
    (split; [reflexivity |]); (split; [lia |]); (split; [lia |]).
  - intros _ _. eexists. reflexivity.
  - intros _ E. discriminate.
  - intros E. discriminate.
Qed.

(** *** One epoch, in more detail *)

Lemma count_sched_step (l : list (Z * event Params)) (e : Z) :
  count_sched (l ++ [(e, SchedulerStep)]) = S (count_sched l) /\
  count_opt (l ++ [(e, SchedulerStep)]) = count_opt l.
Proof. rewrite !count_events_app. cbn. lia. Qed.

Lemma optimizer_steps_are_no_scheduler_steps (evs : list (Z * event Params)) :
  Forall (fun x => is_optimizer_step (snd x) = true) evs ->
  Forall (fun x => is_scheduler_step (snd x) = false) evs.
Proof.
  apply Forall_impl. intros [e x] H. destruct x; cbn in *; congruence.
Qed.

(** An epoch that completes has taken one optimizer step for each batch
    and one scheduler step, and has left the model as its pass over the
    batches left it; when it is due to save, the checkpoint of that model
    is the last thing it does. *)
Lemma train_epoch_frame (ev : model Params -> sample Tensor -> result R)
      (g tst : reader Tensor) (step : Z) (gamma : R) (d : Z) (ckpt : string)
      (e : Z) (s s' : state) :
  train_epoch optimizer_step clock ev g tst step gamma d ckpt e s
  = (Ok tt, s') ->
  count_opt (log s') = (count_opt (log s) + List.length (batches g))%nat /\
  count_sched (log s') = S (count_sched (log s)) /\
  (due d e = true -> nonempty ckpt = true ->
   exists pre, log s' = pre ++ [(e, SaveModel ckpt (net s'))]).
Proof.
  unfold train_epoch.
  unfold bind at 1, set_epoch at 1.
  unfold bind at 1, now at 1.
  unfold bind at 1.
  match goal with
  | |- context [map_m _ _ ?s1] =>
      set (s1' := s1);
      destruct (map_m (train_step optimizer_step ev) (batches g) s1')
        as [[ll | x] s2] eqn:Hpass; [| discriminate];
      pose proof (train_pass_spec _ _ _ _ _ _ _ _ _ Hpass)
        as (_ & _ & _ & Hep & _);
      apply train_pass_steps in Hpass;
      destruct Hpass as (evs1 & Hlog1 & Hall1 & Hlen1);
      subst s1'; cbn [lr last_epoch ticks epoch log] in *
  end.
  specialize (Hlen1 ll eq_refl).
  assert (Hopt2 : count_opt (log s2)
                  = (count_opt (log s) + List.length (batches g))%nat).
  { rewrite Hlog1, count_events_app, (count_events_all _ _ Hall1), Hlen1.
    reflexivity. }
  assert (Hsched2 : count_sched (log s2) = count_sched (log s)).
  { rewrite Hlog1, count_events_app,
      (count_events_none _ _ (optimizer_steps_are_no_scheduler_steps _ Hall1)).
    lia. }
  unfold bind at 1, scheduler_step at 1, py_mod at 1.
  destruct (step =? 0)%Z; [discriminate |].
  unfold bind at 1, lift at 1, due.
  destruct (py_mod e d) as [q | x]; [| discriminate].
  destruct (q =? 0)%Z.
  - intros H. apply display_frame in H.
    cbn [net lr last_epoch log epoch] in H.
    destruct H as (_ & _ & _ & Ho & Hs & Hsave).
    destruct (count_sched_step (log s2) (epoch s2)) as [Hs3 Ho3].
    rewrite Ho, Hs, Hs3, Ho3, Hopt2, Hsched2.
    split; [reflexivity |]. split; [reflexivity |].
    intros _ Hck. rewrite <- Hep. apply Hsave; [reflexivity | exact Hck].
  - unfold ret. intros H. injection H as <-. cbn [log].
    destruct (count_sched_step (log s2) (epoch s2)) as [Hs3 Ho3].
    rewrite Hs3, Ho3, Hopt2, Hsched2.
    split; [reflexivity |]. split; [reflexivity |].
    intros E. discriminate.
Qed.

(** With [display_epoch = 0] an epoch does its pass over the batches and
    its scheduler step and then raises [ZeroDivisionError] at
    [epoch % display_epoch]. *)
Lemma train_epoch_display_zero (ff : R) (g tst : reader Tensor) (step : Z)
      (gamma : R) (ckpt : string) (e : Z) (s : state) :
  forallb (sample_ok ff) (batches g) = true ->
  step <> 0%Z ->
  exists s',
    train_epoch optimizer_step clock (make_evaluator ff mse_loss)
                g tst step gamma 0 ckpt e s = (Raise ZeroDivisionError, s') /\
    last_epoch s' = (last_epoch s + 1)%Z /\
    count_opt (log s') = (count_opt (log s) + List.length (batches g))%nat /\
    count_sched (log s') = S (count_sched (log s)) /\
    forall k, epochs_of (of_kind k) (log s') = epochs_of (of_kind k) (log s).
Proof.
  intros Hg Hstep.
  unfold train_epoch.
  unfold bind at 1, set_epoch at 1.
  unfold bind at 1, now at 1.
  unfold bind at 1.
  match goal with
  | |- context [map_m _ _ ?s1] =>
      set (s1' := s1);
      destruct (train_pass_total _ _ _ forward autograd_grad einsum tneg
                                 mse_loss optimizer_step ff _ Hg s1')
        as (ll & s2 & Hpass);
      rewrite Hpass;
      pose proof (train_pass_spec _ _ _ _ _ _ _ _ _ Hpass)
        as (_ & Hle & _ & Hep & evs0 & Hlog0 & Hall0);
      apply train_pass_steps in Hpass;
      destruct Hpass as (evs1 & Hlog1 & Hall1 & Hlen1);
      subst s1'; cbn [lr last_epoch ticks epoch log] in *
  end.
  specialize (Hlen1 ll eq_refl).
  unfold bind at 1, scheduler_step at 1, py_mod at 1.
  apply Z.eqb_neq in Hstep. rewrite Hstep.
  unfold bind at 1, lift at 1, py_mod. cbn [Z.eqb].
  eexists. split; [reflexivity |]. cbn [last_epoch log].
  destruct (count_sched_step (log s2) (epoch s2)) as [Hs3 Ho3].
  rewrite Hs3, Ho3, Hle.
  split; [reflexivity |].
  split.
  { rewrite Hlog1, count_events_app, (count_events_all _ _ Hall1), Hlen1.
    reflexivity. }
  split.
  { rewrite Hlog1, count_events_app,
      (count_events_none _ _ (optimizer_steps_are_no_scheduler_steps _ Hall1)).
    lia. }
  intros k. rewrite Hlog0, <- app_assoc, !epochs_of_app.
  rewrite (epochs_of_training _ k _ _ Hall0).
  destruct k; cbn; rewrite app_nil_r; reflexivity.
Qed.

(** *** The loop and the whole of [train], in more detail *)

Lemma epoch_loop_frame (ev : model Params -> sample Tensor -> result R)
      (g tst : reader Tensor) (step : Z) (gamma : R) (d : Z) (ckpt : string)
      (l : list Z) :
  forall s s' : state,
    for_each l (train_epoch optimizer_step clock ev g tst step gamma d ckpt) s
    = (Ok tt, s') ->
    count_opt (log s')
    = (count_opt (log s) + List.length l * List.length (batches g))%nat /\
    count_sched (log s') = (count_sched (log s) + List.length l)%nat /\
    last_epoch s' = (last_epoch s + Z.of_nat (List.length l))%Z.
Proof.
  induction l as [| e l IH]; intros s s' H.
  - cbn in H. injection H as <-. cbn. lia.
  - cbn [for_each] in H. unfold bind at 1 in H.
    destruct (train_epoch optimizer_step clock ev g tst step gamma d ckpt e s)
      as [[[] | x] s1] eqn:He; [| discriminate].
    pose proof (train_epoch_spec _ _ _ _ _ _ _ _ _ _ _ _ _ _ _ _ He)
      as (evs & _ & _ & Hok).
    destruct (Hok eq_refl) as (_ & _ & Hle & _).
    apply train_epoch_frame in He. destruct He as (Ho & Hs & _).
    apply IH in H. destruct H as (Ho' & Hs' & Hle').
    rewrite Ho', Hs', Hle', Ho, Hs, Hle. cbn [List.length]. lia.
Qed.

(** Either [train] raises before the loop, having printed headings only
    and touched neither the model nor the learning rate, or its optimizer
    is built, it has a decay rate and the losses of the model on all the
    batches of both readers. *)
Lemma train_prelude_cases (m : model Params) (g : reader Tensor)
      (a : train_args Tensor) :
  (exists x,
      fst (train m g a) = Raise x /\
      Forall (fun y => is_heading (snd y) = true) (log (snd (train m g a))) /\
      net (snd (train m g a)) = m /\
      lr (snd (train m g a)) = start_lr a /\
      last_epoch (snd (train m g a)) = 0%Z) \/
  (exists gamma trn tst,
      0 <= start_lr a /\ 0 <= weight_decay a /\
      resolved_rate a gamma /\
      map_result (make_evaluator (force_factor a) mse_loss m)
                 (sample_all_batch g) = Ok trn /\
      map_result (make_evaluator (force_factor a) mse_loss m)
                 (sample_all_batch (test_reader_of g a)) = Ok tst).
Proof.
  destruct (adam_arguments_dec _ a) as [[Hlr Hwd] | Hbad].
  2: { left. exists ValueError.
       rewrite (train_adam_error _ _ _ forward autograd_grad einsum tneg
                  mse_loss adam optimizer_step clock m g a Hbad).
       cbn. repeat split. repeat constructor. }
  assert (Hfail :
            forall gamma, resolved_rate a gamma ->
              (exists x, map_result (make_evaluator (force_factor a) mse_loss m)
                                    (sample_all_batch g) = Raise x) \/
              (exists trn x,
                  map_result (make_evaluator (force_factor a) mse_loss m)
                             (sample_all_batch g) = Ok trn /\
                  map_result (make_evaluator (force_factor a) mse_loss m)
                             (sample_all_batch (test_reader_of g a))
                  = Raise x) ->
              exists x st,
                train m g a = (Raise x, st) /\
                Forall (fun y => is_heading (snd y) = true) (log st) /\
                net st = m /\ lr st = start_lr a /\ last_epoch st = 0%Z).
  { intros gamma Hrate Hcase.
    unfold resolved_rate in Hrate.
    unfold Train.train, train_body, initial_state.
    unfold bind at 1, emit at 1. cbn [epoch log net opt lr last_epoch ticks].
    unfold bind at 1. rewrite (build_optimizer_ok _ _ _ adam a m _ _ _ _ Hlr Hwd).
    unfold bind at 1, resolve_decay_rate.
    destruct (stop_lr a) as [stop |].
    - unfold bind at 1, lift at 1. rewrite Hrate.
      unfold bind at 1, emit at 1, ret at 1.
      cbn [epoch log net opt lr last_epoch ticks].
      unfold bind at 1, emit at 1. cbn [epoch log net opt lr last_epoch ticks].
      unfold bind at 1, now at 1. cbn [epoch log net opt lr last_epoch ticks].
      unfold bind at 1, evaluate_all at 1. cbn [net].
      destruct Hcase as [[x Htrn] | (trn & x & Htrn & Htst)]; rewrite Htrn.
      + do 2 eexists. split; [reflexivity |]. cbn.
        split; [repeat constructor |]. repeat split.
      + unfold bind at 1, evaluate_all at 1. cbn [net]. rewrite Htst.
        do 2 eexists. split; [reflexivity |]. cbn.
        split; [repeat constructor |]. repeat split.
    - unfold ret at 1.
      unfold bind at 1, emit at 1. cbn [epoch log net opt lr last_epoch ticks].
      unfold bind at 1, now at 1. cbn [epoch log net opt lr last_epoch ticks].
      unfold bind at 1, evaluate_all at 1. cbn [net].
      destruct Hcase as [[x Htrn] | (trn & x & Htrn & Htst)]; rewrite Htrn.
      + do 2 eexists. split; [reflexivity |]. cbn.
        split; [repeat constructor |]. repeat split.
      + unfold bind at 1, evaluate_all at 1. cbn [net]. rewrite Htst.
        do 2 eexists. split; [reflexivity |]. cbn.
        split; [repeat constructor |]. repeat split. }
  assert (Hgamma : (exists gamma, resolved_rate a gamma) \/
                   (exists stop x,
                       stop_lr a = Some stop /\
                       back_solve_decay_rate stop (start_lr a) (n_epoch a)
                                             (decay_steps a) = Raise x)).
  { unfold resolved_rate. destruct (stop_lr a) as [stop |]; [| eauto].
    destruct (back_solve_decay_rate stop (start_lr a) (n_epoch a)
                                    (decay_steps a)) as [gamma | x] eqn:E.
    - left. exists gamma. reflexivity.
    - right. exists stop, x. split; [reflexivity | exact E]. }
  destruct Hgamma as [[gamma Hrate] | (stop & x & Hstop & Hsolve)].
  - destruct (map_result (make_evaluator (force_factor a) mse_loss m)
                         (sample_all_batch g)) as [trn | x1] eqn:Htrn.
    + destruct (map_result (make_evaluator (force_factor a) mse_loss m)
                           (sample_all_batch (test_reader_of g a)))
        as [tst | x2] eqn:Htst.
      * right. exists gamma, trn, tst. repeat split; assumption.
      * left. destruct (Hfail gamma Hrate) as (x & st & Hrun & H);
          [right; eauto |].
        exists x. rewrite Hrun. split; [reflexivity | exact H].
    + left. destruct (Hfail gamma Hrate) as (x & st & Hrun & H);
        [left; eauto |].
      exists x. rewrite Hrun. split; [reflexivity | exact H].
  - left. exists x.
    rewrite (train_back_solve_error _ _ _ forward autograd_grad einsum tneg
               mse_loss adam optimizer_step clock m g a stop x Hlr Hwd
               Hstop Hsolve).
    cbn. repeat split. repeat constructor.
Qed.

Lemma prelude_counts (a : train_args Tensor) (gamma : R) (trn tst : list R) :
  count_opt (prelude_log clock a gamma trn tst) = 0%nat /\
  count_sched (prelude_log clock a gamma trn tst) = 0%nat /\
  forall k, epochs_of (of_kind k)
                      (prelude_log (Params := Params) clock a gamma trn tst) =
            match k with KRow => [0%Z] | _ => [] end.
Proof.
  unfold prelude_log.
  destruct (stop_lr a); cbn; repeat split; intros k; destruct k; reflexivity.
Qed.

(** *** Rows print the learning rate of their epoch *)

Lemma display_rows (ev : model Params -> sample Tensor -> result R)
      (tst : reader Tensor) (ckpt : string) (e : Z) (ll : list R) (tic : R)
      (start gamma : R) (step : Z) (s s' : state) (r : result unit) :
  display clock ev tst ckpt e ll tic s = (r, s') ->
  lr s = step_lr start gamma step e ->
  Forall (row_lr_ok start gamma step) (log s) ->
  Forall (row_lr_ok start gamma step) (log s').
Proof.
  unfold display, bind, emit, now, evaluate_all, get_last_lr, save, ret.
  cbn.
  destruct (map_result (ev (net s)) (sample_all_batch tst)) as [tl | x];
    [destruct (nonempty ckpt) |];
    intros H Hlr Hlog; injection H as <- <-; cbn;
    repeat (apply Forall_app; split); try assumption;
    repeat (apply Forall_cons || apply Forall_nil);
    unfold row_lr_ok; cbn; auto.
Qed.

Lemma training_rows (start gamma : R) (step : Z)
      (evs : list (Z * event Params)) (e : Z) :
  Forall (fun x => fst x = e /\ is_training (snd x) = true) evs ->
  Forall (row_lr_ok start gamma step) evs.
Proof.
  apply Forall_impl. intros [e' x] [_ Hx]. unfold row_lr_ok.
  destruct x; cbn in Hx |- *; try discriminate; exact I.
Qed.

Lemma train_epoch_rows (ev : model Params -> sample Tensor -> result R)
      (g tst : reader Tensor) (step : Z) (start gamma : R) (d : Z)
      (ckpt : string) (e : Z) (s s' : state) (r : result unit) :
  (0 < step)%Z -> (0 <= last_epoch s)%Z ->
  lr s = step_lr start gamma step (last_epoch s) ->
  e = (last_epoch s + 1)%Z ->
  train_epoch optimizer_step clock ev g tst step gamma d ckpt e s = (r, s') ->
  Forall (row_lr_ok start gamma step) (log s) ->
  Forall (row_lr_ok start gamma step) (log s').
Proof.
  intros Hstep Hle0 Hlr0 He H Hlog. revert H.
  unfold train_epoch.
  unfold bind at 1, set_epoch at 1.
  unfold bind at 1, now at 1.
  unfold bind at 1.
  match goal with
  | |- context [map_m _ _ ?s1] =>
      set (s1' := s1);
      destruct (map_m (train_step optimizer_step ev) (batches g) s1')
        as [[ll | x] s2] eqn:Hpass;
      apply train_pass_spec in Hpass;
      destruct Hpass as (Hlr & Hle & _ & Hep & evs1 & Hlog1 & Hall1);
      subst s1'; cbn [lr last_epoch ticks epoch log] in *
  end.
  2: { intros H; injection H as <- <-. rewrite Hlog1.
       apply Forall_app. split; [assumption |].
       apply (training_rows start gamma step _ _ Hall1). }
  assert (Hlog2 : Forall (row_lr_ok start gamma step) (log s2)).
  { rewrite Hlog1. apply Forall_app. split; [assumption |].
    apply (training_rows start gamma step _ _ Hall1). }
  assert (Hsched : forall e' : Z,
             row_lr_ok (Params := Params) start gamma step (e', SchedulerStep)).
  { intros e'. exact I. }
  unfold bind at 1, scheduler_step at 1, py_mod at 1.
  destruct (step =? 0)%Z.
  { intros H; injection H as <- <-. assumption. }
  unfold bind at 1, lift at 1.
  destruct (py_mod e d) as [q | x].
  2: { intros H; injection H as <- <-. cbn [log].
       apply Forall_app. split; [assumption |].
       constructor; [apply Hsched | constructor]. }
  destruct (q =? 0)%Z.
  - intros H. apply (display_rows _ _ _ _ _ _ start gamma step) in H;
      [assumption | |].
    + cbn [lr]. rewrite Hle, Hlr, Hlr0, He. symmetry.
      apply step_lr_succ; assumption.
    + cbn [log]. apply Forall_app. split; [assumption |].
      constructor; [apply Hsched | constructor].
  - unfold ret. intros H; injection H as <- <-. cbn [log].
    apply Forall_app. split; [assumption |].
    constructor; [apply Hsched | constructor].
Qed.

Lemma epoch_loop_rows (ev : model Params -> sample Tensor -> result R)
      (g tst : reader Tensor) (step : Z) (start gamma : R) (d : Z)
      (ckpt : string) (l : list Z) :
  (0 < step)%Z ->
  forall (s s' : state) (r : result unit),
    (0 <= last_epoch s)%Z ->
    lr s = step_lr start gamma step (last_epoch s) ->
    consecutive (last_epoch s + 1) l ->
    for_each l (train_epoch optimizer_step clock ev g tst step gamma d ckpt) s
    = (r, s') ->
    Forall (row_lr_ok start gamma step) (log s) ->
    Forall (row_lr_ok start gamma step) (log s').
Proof.
  intros Hstep.
  induction l as [| e l IH]; intros s s' r Hle Hlr Hcons H Hlog.
  - cbn in H. injection H as <- <-. assumption.
  - cbn [consecutive] in Hcons. destruct Hcons as [He Hcons].
    cbn [for_each] in H. unfold bind at 1 in H.
    destruct (train_epoch optimizer_step clock ev g tst step gamma d ckpt e s)
      as [[[] | x] s1] eqn:Hepoch.
    + pose proof (train_epoch_rows _ _ _ _ _ _ _ _ _ _ _ _
                                   Hstep Hle Hlr He Hepoch Hlog) as Hlog1.
      pose proof (train_epoch_spec _ _ _ _ _ _ _ _ _ _ _ _ _ _ _ _ Hepoch)
        as (evs & _ & _ & Hok).
      destruct (Hok eq_refl) as (_ & _ & Hle1 & Hlr1).
      apply (IH s1 s' r); try assumption.
      * lia.
      * rewrite Hlr1, Hle1, Hlr. symmetry. apply step_lr_succ; assumption.
      * rewrite Hle1. exact Hcons.
    + injection H as <- <-.
      apply (train_epoch_rows _ _ _ _ _ _ _ _ _ _ _ _
                              Hstep Hle Hlr He Hepoch Hlog).
Qed.

(** *** Runs without epochs, and with [display_epoch = 0] *)

(** With a learning rate and a weight decay that are not negative,
    [n_epoch <= 0] and no [stop_lr], [train] evaluates the model on
    both readers, prints the row of epoch 0 and returns: the model and
    the learning rate are untouched, no optimizer or scheduler step is
    taken and no checkpoint is saved, whatever [ckpt_file]. *)
Theorem train_without_epochs (m : model Params) (g : reader Tensor)
        (a : train_args Tensor) :
  0 <= start_lr a ->
  0 <= weight_decay a ->
  (n_epoch a <= 0)%Z ->
  stop_lr a = None ->
  forallb (sample_ok (force_factor a)) (sample_all_batch g) = true ->
  forallb (sample_ok (force_factor a))
          (sample_all_batch (test_reader_of g a)) = true ->
  fst (train m g a) = Ok None /\
  net (snd (train m g a)) = m /\
  lr (snd (train m g a)) = start_lr a /\
  count_opt (log (snd (train m g a))) = 0%nat /\
  count_sched (log (snd (train m g a))) = 0%nat /\
  epochs_of is_save (log (snd (train m g a))) = [] /\
  epochs_of is_row (log (snd (train m g a))) = [0%Z].
Proof.
  intros Hlr Hwd Hn Hstop Hg Ht.
  destruct (evaluate_all_total _ _ forward autograd_grad einsum tneg mse_loss
                               (force_factor a) m _ Hg) as [trn Htrn].
  destruct (evaluate_all_total _ _ forward autograd_grad einsum tneg mse_loss
                               (force_factor a) m _ Ht) as [tst Htst].
  rewrite (train_enters_loop m g a (decay_rate a) trn tst Hlr Hwd);
    [| unfold resolved_rate; rewrite Hstop; reflexivity | exact Htrn
     | exact Htst].
  rewrite py_range_empty by lia. cbn [for_each]. unfold ret. cbn [fst snd].
  unfold loop_entry. cbn [net lr log].
  destruct (prelude_counts a (decay_rate a) trn tst) as (Ho & Hs & Hk).
  rewrite Ho, Hs.
  change (is_save (Params := Params)) with (of_kind (Params := Params) KSave).
  change (is_row (Params := Params)) with (of_kind (Params := Params) KRow).
  rewrite !Hk. repeat split.
Qed.

(** With a learning rate and a weight decay that are not negative,
    [display_epoch = 0], at least one epoch and no [stop_lr],
    [train] raises [ZeroDivisionError] at the end of the first epoch: the
    optimizer has taken one step for each batch and the scheduler one
    step, no row but that of epoch 0 has been printed and nothing has
    been saved. *)
Theorem train_display_zero (m : model Params) (g : reader Tensor)
        (a : train_args Tensor) :
  0 <= start_lr a ->
  0 <= weight_decay a ->
  display_epoch a = 0%Z ->
  (1 <= n_epoch a)%Z ->
  decay_steps a <> 0%Z ->
  stop_lr a = None ->
  forallb (sample_ok (force_factor a)) (batches g) = true ->
  forallb (sample_ok (force_factor a)) (sample_all_batch g) = true ->
  forallb (sample_ok (force_factor a))
          (sample_all_batch (test_reader_of g a)) = true ->
  fst (train m g a) = Raise ZeroDivisionError /\
  last_epoch (snd (train m g a)) = 1%Z /\
  count_opt (log (snd (train m g a))) = List.length (batches g) /\
  count_sched (log (snd (train m g a))) = 1%nat /\
  epochs_of is_save (log (snd (train m g a))) = [] /\
  epochs_of is_row (log (snd (train m g a))) = [0%Z].
Proof.
  intros Hlr Hwd Hd Hn Hstep Hstop Hb Hg Ht.
  destruct (evaluate_all_total _ _ forward autograd_grad einsum tneg mse_loss
                               (force_factor a) m _ Hg) as [trn Htrn].
  destruct (evaluate_all_total _ _ forward autograd_grad einsum tneg mse_loss
                               (force_factor a) m _ Ht) as [tst Htst].
  destruct (train_epoch_display_zero
              (force_factor a) g (test_reader_of g a) (decay_steps a)
              (decay_rate a) (ckpt_file a) 1
              (loop_entry adam clock m a (decay_rate a) trn tst) Hb Hstep)
    as (s' & Hrun & Hle & Ho & Hs & Hk).
  assert (Htrain : train m g a = (Raise ZeroDivisionError, s')).
  { rewrite (train_enters_loop m g a (decay_rate a) trn tst Hlr Hwd);
      [| unfold resolved_rate; rewrite Hstop; reflexivity | exact Htrn
       | exact Htst].
    rewrite py_range_cons by lia. cbn [for_each]. unfold bind at 1.
    rewrite Hd, Hrun. reflexivity. }
  rewrite Htrain. cbn [fst snd].
  unfold loop_entry in Hle, Ho, Hs, Hk. cbn [last_epoch log] in Hle, Ho, Hs, Hk.
  destruct (prelude_counts a (decay_rate a) trn tst) as (Ho0 & Hs0 & Hk0).
  rewrite Ho0 in Ho. rewrite Hs0 in Hs.
  change (is_save (Params := Params)) with (of_kind (Params := Params) KSave).
  change (is_row (Params := Params)) with (of_kind (Params := Params) KRow).
  rewrite !Hk, !Hk0, Ho, Hs, Hle. repeat split.
Qed.

(** *** Completed runs *)

Lemma train_completed_loop (m : model Params) (g : reader Tensor)
      (a : train_args Tensor) :
  fst (train m g a) = Ok None ->
  exists gamma trn tst,
    resolved_rate a gamma /\
    epoch_loop g a gamma (loop_entry adam clock m a gamma trn tst)
    = (Ok tt, snd (train m g a)).
Proof.
  intros Hdone.
  destruct (train_prelude_cases m g a)
    as [(x & Hx & _) | (gamma & trn & tst & Hlr & Hwd & Hrate & Htrn & Htst)].
  - rewrite Hx in Hdone. discriminate.
  - exists gamma, trn, tst. split; [exact Hrate |].
    rewrite (train_enters_loop m g a gamma trn tst Hlr Hwd Hrate Htrn Htst) in *.
    destruct (epoch_loop g a gamma (loop_entry adam clock m a gamma trn tst))
      as [[[] | x] st]; [reflexivity | discriminate].
Qed.

(** In a run that completes, the optimizer has taken one step for each
    batch of each epoch, and the scheduler one step for each epoch: its
    epoch counter ends at [n_epoch] (at 0 for a negative [n_epoch]). *)
Theorem train_step_counts (m : model Params) (g : reader Tensor)
        (a : train_args Tensor) :
  fst (train m g a) = Ok None ->
  count_opt (log (snd (train m g a)))
  = (Z.to_nat (n_epoch a) * List.length (batches g))%nat /\
  count_sched (log (snd (train m g a))) = Z.to_nat (n_epoch a) /\
  last_epoch (snd (train m g a)) = Z.max 0 (n_epoch a).
Proof.
  intros Hdone.
  destruct (train_completed_loop m g a Hdone)
    as (gamma & trn & tst & _ & Hloop).
  apply epoch_loop_frame in Hloop. destruct Hloop as (Ho & Hs & Hle).
  unfold loop_entry in Ho, Hs, Hle. cbn [log last_epoch] in Ho, Hs, Hle.
  destruct (prelude_counts a gamma trn tst) as (Ho0 & Hs0 & _).
  rewrite Ho0 in Ho. rewrite Hs0 in Hs.
  rewrite length_py_range in Ho, Hs, Hle.
  replace (Z.to_nat (n_epoch a + 1 - 1)) with (Z.to_nat (n_epoch a))
    in Ho, Hs, Hle by lia.
  rewrite Ho, Hs, Hle. repeat split. lia.
Qed.

(** In a run that completes without [stop_lr] and with a positive
    [decay_steps], the learning rate ends at
    [start_lr * decay_rate ** (n_epoch // decay_steps)]. *)
Theorem train_final_learning_rate (m : model Params) (g : reader Tensor)
        (a : train_args Tensor) :
  fst (train m g a) = Ok None ->
  stop_lr a = None ->
  (0 < decay_steps a)%Z ->
  lr (snd (train m g a)) =
  start_lr a *
  decay_rate a ^ Z.to_nat (Z.max 0 (n_epoch a) / decay_steps a).
Proof.
  intros Hdone Hstop Hstep.
  destruct (train_completed_loop m g a Hdone)
    as (gamma & trn & tst & Hrate & Hloop).
  unfold resolved_rate in Hrate. rewrite Hstop in Hrate. subst gamma.
  apply (epoch_loop_lr _ _ _ _ _ _ _ _ _ (start_lr a)) in Hloop.
  - destruct Hloop as [Hle Hlr].
    unfold loop_entry in Hle. cbn [last_epoch] in Hle.
    rewrite length_py_range in Hle.
    rewrite Hlr, Hle.
    replace (0 + Z.of_nat (Z.to_nat (n_epoch a + 1 - 1)))%Z
      with (Z.max 0 (n_epoch a)) by lia.
    reflexivity.
  - exact Hstep.
  - cbn. lia.
  - cbn. unfold step_lr. rewrite Z.div_0_l by lia. cbn. ring.
Qed.

(** Whatever the outcome of the run, every row shows for its epoch [e]
    the learning rate [start_lr * gamma ** (e // decay_steps)], where
    [gamma] is the decay rate in use and [decay_steps] is positive. *)
Theorem train_rows_show_scheduled_rate (m : model Params) (g : reader Tensor)
        (a : train_args Tensor) (gamma : R) :
  resolved_rate a gamma ->
  (0 < decay_steps a)%Z ->
  Forall (row_lr_ok (start_lr a) gamma (decay_steps a))
         (log (snd (train m g a))).
Proof.
  intros Hrate Hstep.
  destruct (train_prelude_cases m g a)
    as [(x & _ & Hhead & _) | (gamma' & trn & tst & Hlr & Hwd & Hrate' & Htrn & Htst)].
  - eapply Forall_impl; [| exact Hhead].
    intros [e x0] Hx. unfold row_lr_ok.
    destruct x0; cbn in Hx |- *; try discriminate; exact I.
  - assert (gamma' = gamma).
    { unfold resolved_rate in Hrate, Hrate'.
      destruct (stop_lr a); congruence. }
    subst gamma'.
    rewrite (train_enters_loop m g a gamma trn tst Hlr Hwd Hrate Htrn Htst).
    destruct (epoch_loop g a gamma (loop_entry adam clock m a gamma trn tst))
      as [r' st] eqn:Hloop.
    assert (Hst : Forall (row_lr_ok (start_lr a) gamma (decay_steps a))
                         (log st)).
    { apply (epoch_loop_rows _ _ _ _ (start_lr a) _ _ _ _ Hstep _ _ _)
        in Hloop; [exact Hloop | cbn; lia | | |].
      - cbn. unfold step_lr. rewrite Z.div_0_l by lia. cbn. ring.
      - cbn [loop_entry last_epoch]. apply py_range_consecutive.
      - unfold loop_entry, prelude_log. cbn [log].
        destruct (stop_lr a); cbn;
          repeat (apply Forall_cons || apply Forall_nil);
          unfold row_lr_ok; cbn; auto;
          unfold step_lr; rewrite Z.div_0_l by lia; cbn; ring. }
    destruct r' as [[] | x]; exact Hst.
Qed.

Lemma first_row_in_log (m : model Params) (g : reader Tensor)
      (a : train_args Tensor) :
  test_reader a = None ->
  forall stamp trn_err tst_err rate trn_time tst_time,
    In (stamp, PrintRow 0 trn_err tst_err rate trn_time tst_time)
       (log (snd (train m g a))) ->
    trn_err = tst_err.
Proof.
  intros Hnone stamp trn_err tst_err rate trn_time tst_time Hin.
  assert (Hstamp : (0 = stamp)%Z).
  { pose proof (train_events_ok _ _ _ forward autograd_grad einsum tneg
                                mse_loss adam optimizer_step clock m g a)
      as Hok.
    rewrite Forall_forall in Hok. destruct (Hok _ Hin) as [Hw _].
    exact Hw. }
  destruct (train_prelude_cases m g a)
    as [(x & _ & Hhead & _) | (gamma & trn & tst & Hlr & Hwd & Hrate & Htrn & Htst)].
  - rewrite Forall_forall in Hhead. specialize (Hhead _ Hin).
    discriminate.
  - rewrite (train_enters_loop m g a gamma trn tst Hlr Hwd Hrate Htrn Htst) in Hin.
    destruct (epoch_loop g a gamma (loop_entry adam clock m a gamma trn tst))
      as [r' st] eqn:Hloop.
    assert (Hin' : In (stamp,
                       PrintRow 0 trn_err tst_err rate trn_time tst_time)
                      (log st)).
    { destruct r' as [[] | x]; exact Hin. }
    clear Hin.
    apply epoch_loop_spec in Hloop.
    destruct Hloop as (evs & Hlog & Hany & _).
    rewrite Hlog in Hin'. apply in_app_or in Hin'.
    destruct Hin' as [Hpre | Hloop].
    + rewrite Hnone in Htst. rewrite Htrn in Htst. injection Htst as <-.
      unfold loop_entry, prelude_log in Hpre. cbn [log] in Hpre.
      destruct (stop_lr a); cbn in Hpre;
        repeat (destruct Hpre as [Hpre | Hpre]; try discriminate);
        try contradiction;
        injection Hpre as _ <- <- _ _; reflexivity.
    + exfalso.
      destruct (Hany KRow stamp) as [Hrange _].
      { unfold epochs_of. apply in_map_iff.
        exists (stamp, PrintRow 0 trn_err tst_err rate trn_time tst_time).
        split; [reflexivity |]. apply filter_In. split; [exact Hloop |].
        reflexivity. }
      apply in_py_range in Hrange. lia.
Qed.

(** Without a test reader, the row of epoch 0 prints the same number as
    train error and as test error, whatever the outcome of the run. *)
Theorem train_first_row_same_errors (m : model Params) (g : reader Tensor)
        (a : train_args Tensor) :
  test_reader a = None ->
  Forall first_row_same (log (snd (train m g a))).
Proof.
  intros Hnone. apply Forall_forall. intros [stamp x] Hin.
  unfold first_row_same. destruct x; try exact I.
  cbn [snd]. intros He. subst.
  exact (first_row_in_log m g a Hnone _ _ _ _ _ _ Hin).
Qed.

(** In a run that completes with [n_epoch >= 1] a multiple of
    [display_epoch] and a non-empty [ckpt_file], the last thing [train]
    does is to save the model it ends with: the checkpoint on disk is the
    final model. *)
Theorem train_last_checkpoint_is_final_model
        (m : model Params) (g : reader Tensor) (a : train_args Tensor) :
  fst (train m g a) = Ok None ->
  (1 <= n_epoch a)%Z ->
  (display_epoch a | n_epoch a)%Z ->
  ckpt_file a <> EmptyString ->
  exists earlier,
    log (snd (train m g a)) =
    earlier ++ [(n_epoch a,
                 SaveModel (ckpt_file a) (net (snd (train m g a))))].
Proof.
  intros Hdone Hn Hdiv Hck.
  destruct (train_completed_loop m g a Hdone)
    as (gamma & trn & tst & _ & Hloop).
  rewrite py_range_snoc in Hloop by lia.
  rewrite for_each_app in Hloop.
  match type of Hloop with
  | context [for_each (py_range 1 ?n) ?b ?s0] =>
      destruct (for_each (py_range 1 n) b s0) as [[[] | x] s1];
        [| discriminate]
  end.
  cbn [for_each] in Hloop. unfold bind at 1 in Hloop.
  match type of Hloop with
  | context [train_epoch ?os ?ck ?ev ?g1 ?t1 ?st ?ga ?d ?c ?e ?s] =>
      destruct (train_epoch os ck ev g1 t1 st ga d c e s)
        as [[[] | x] s2] eqn:Hlast; [| discriminate]
  end.
  unfold ret in Hloop. injection Hloop as Hst.
  apply train_epoch_frame in Hlast. destruct Hlast as (_ & _ & Hsave).
  rewrite <- Hst. apply Hsave.
  - apply due_divide; [lia | exact Hdiv].
  - apply nonempty_iff. exact Hck.
Qed.

(** *** Samples that cannot be unpacked *)

Lemma evaluator_fails (ff : R) (m : model Params) (smp : sample Tensor) :
  sample_ok ff smp = false ->
  make_evaluator ff mse_loss m smp = Raise ValueError.
Proof.
  unfold sample_ok, Train.make_evaluator.
  destruct smp as [| e_label [| eig force_sample]]; try reflexivity.
  destruct (positive ff); [| discriminate].
  destruct force_sample as [| f_label [| gvx [| x rest]]];
    try reflexivity; discriminate.
Qed.

Lemma evaluate_all_fails (ff : R) (m : model Params)
      (l : list (sample Tensor)) :
  forallb (sample_ok ff) l = false ->
  map_result (make_evaluator ff mse_loss m) l = Raise ValueError.
Proof.
  induction l as [| smp l IH]; cbn [forallb map_result]; intros H.
  - discriminate.
  - destruct (sample_ok ff smp) eqn:Hs.
    + destruct (evaluator_total _ _ forward autograd_grad einsum tneg mse_loss
                                ff m smp Hs) as [v Hv].
      rewrite Hv. cbn [rbind]. rewrite (IH H). reflexivity.
    + rewrite (evaluator_fails ff m smp Hs). reflexivity.
Qed.

(** If some batch of [g_reader.sample_all_batch()] cannot be unpacked --
    fewer than two tensors, or not exactly four with a positive
    [force_factor] -- then [train] without [stop_lr], with a learning
    rate and a weight decay that are not negative, raises [ValueError]
    before the first row: the model is untouched, no step is taken and
    nothing is saved. *)
Theorem train_rejects_malformed_batches
        (m : model Params) (g : reader Tensor) (a : train_args Tensor) :
  0 <= start_lr a ->
  0 <= weight_decay a ->
  stop_lr a = None ->
  forallb (sample_ok (force_factor a)) (sample_all_batch g) = false ->
  train m g a =
  (Raise ValueError,
   State m (adam m (start_lr a) (weight_decay a)) (start_lr a) 0 1 0
         [(0%Z, PrintDevice); (0%Z, PrintHeader)]).
Proof.
  intros Hlr Hwd Hstop Hbad.
  unfold Train.train, train_body, initial_state.
  unfold bind at 1, emit at 1. cbn [epoch log net opt lr last_epoch ticks].
  unfold bind at 1. rewrite (build_optimizer_ok _ _ _ adam a m _ _ _ _ Hlr Hwd).
  unfold bind at 1, resolve_decay_rate. rewrite Hstop. unfold ret at 1.
  unfold bind at 1, emit at 1. cbn [epoch log net opt lr last_epoch ticks].
  unfold bind at 1, now at 1. cbn [epoch log net opt lr last_epoch ticks].
  unfold bind at 1, evaluate_all at 1. cbn [net].
  rewrite (evaluate_all_fails _ m _ Hbad). reflexivity.
Qed.

(** *** Arguments the optimizer refuses *)

(** With a negative [start_lr] or a negative [weight_decay], [train]
    raises [ValueError] at [optim.Adam]: only the first line has been
    printed, the model is untouched, no step is taken and nothing is
    saved, whatever [stop_lr] and the readers. *)
Theorem train_rejects_negative_rates
        (m : model Params) (g : reader Tensor) (a : train_args Tensor) :
  start_lr a < 0 \/ weight_decay a < 0 ->
  fst (train m g a) = Raise ValueError /\
  log (snd (train m g a)) = [(0%Z, PrintDevice)] /\
  net (snd (train m g a)) = m /\
  last_epoch (snd (train m g a)) = 0%Z.
Proof.
  intros Hbad.
  rewrite (train_adam_error _ _ _ forward autograd_grad einsum tneg
             mse_loss adam optimizer_step clock m g a Hbad).
  cbn [fst snd log net last_epoch]. repeat split.
Qed.

End TrainerMore.

(** * More runs of the concrete trainer *)

Section TrainerMoreRuns.

Import Train TrainExample.
Open Scope R_scope.

(** A sample of one tensor cannot be unpacked. *)
Lemma evaluator_succeeds_iff_unpackable_witness :
  TrainExample.make_evaluator 1 mse_loss model0 [2] = Raise ValueError.
Proof.
  apply (proj2 (evaluator_succeeds_iff_unpackable
                  R R forward autograd_grad einsum Ropp 1 mse_loss model0 [2])).
  intros v H. discriminate.
Defined.

(** A negative force factor, on a sample with force data. *)
Lemma evaluator_ignores_force_when_off_witness :
  TrainExample.make_evaluator (-1) mse_loss model0 [2; 1; 0; 1] =
  TrainExample.make_evaluator 0 mse_loss model0 [2; 1] /\
  TrainExample.make_evaluator (-1) mse_loss model0 [2; 1; 0; 1] =
  Ok (mse_loss (forward model0 1) 2).
Proof.
  apply (evaluator_ignores_force_when_off
           R R forward autograd_grad einsum Ropp (-1) mse_loss model0
           2 1 [0; 1]).
  lra.
Defined.

(** Preprocessing with everything switched off. *)
Lemma preprocess_leaves_alone_witness :
  (prefit_weight (preprocess model0 reader0 preprocess_off)
   = prefit_weight model0 /\
   prefit_bias (preprocess model0 reader0 preprocess_off)
   = prefit_bias model0 /\
   prefit_trainable (preprocess model0 reader0 preprocess_off)
   = prefit_trainable model0) /\
  (input_shift (preprocess model0 reader0 preprocess_off)
   = input_shift model0 /\
   input_scale (preprocess model0 reader0 preprocess_off)
   = input_scale model0).
Proof.
  destruct (preprocess_leaves_alone R R model0 reader0 preprocess_off)
    as (_ & Hfit & Hnorm).
  split; [apply Hfit | apply Hnorm]; reflexivity.
Defined.

(** Preprocessing with a lower bound of one on the scale. *)
Lemma preprocess_scale_is_clipped_witness :
  List.length (input_scale (preprocess model0 reader0 preprocess_clipped)) =
  List.length (snd (compute_data_stat reader0)) /\
  Forall (fun x => prescale_clip preprocess_clipped <= x)
         (input_scale (preprocess model0 reader0 preprocess_clipped)).
Proof.
  destruct (preprocess_scale_is_clipped R R model0 reader0 preprocess_clipped
                                        eq_refl) as [Hlen Hclip].
  split; [exact Hlen |]. apply Hclip. cbn. lra.
Defined.

(** Preprocessing with the defaults. *)
Lemma preprocess_prefit_matches_normalization_witness :
  (prefit_weight (preprocess model0 reader0 default_preprocess_args),
   prefit_bias (preprocess model0 reader0 default_preprocess_args)) =
  compute_prefitting
    reader0
    (input_shift (preprocess model0 reader0 default_preprocess_args))
    (input_scale (preprocess model0 reader0 default_preprocess_args))
    (prefit_ridge default_preprocess_args) /\
  prefit_trainable (preprocess model0 reader0 default_preprocess_args) =
  prefit_trainable_arg default_preprocess_args.
Proof.
  apply (preprocess_prefit_matches_normalization
           R R model0 reader0 default_preprocess_args).
  reflexivity.
Defined.

(** Fifty epochs with a decay period of a hundred: the quotient is
    zero. *)
Lemma back_solve_divides_by_zero_witness :
  back_solve_decay_rate 0.0001 0.001 50 100 = Raise ZeroDivisionError.
Proof.
  apply (back_solve_divides_by_zero 0.0001 0.001 50 100).
  right; right. reflexivity.
Defined.

(** A run of no epoch. *)
Lemma train_without_epochs_witness :
  fst (TrainExample.train model0 reader0 args_none) = Ok None /\
  net (snd (TrainExample.train model0 reader0 args_none)) = model0.
Proof.
  destruct (train_without_epochs
              R R unit forward autograd_grad einsum Ropp mse_loss adam
              optimizer_step clock model0 reader0 args_none)
    as (Hdone & Hnet & _).
  - cbn. lra.
  - cbn. lra.
  - cbn. lia.
  - reflexivity.
  - apply reader0_ok.
  - apply reader0_ok.
  - split; [exact Hdone | exact Hnet].
Defined.

(** A run with a display period of zero. *)
Lemma train_display_zero_witness :
  fst (TrainExample.train model0 reader0 args_display_zero)
  = Raise ZeroDivisionError /\
  last_epoch (snd (TrainExample.train model0 reader0 args_display_zero))
  = 1%Z.
Proof.
  destruct (train_display_zero
              R R unit forward autograd_grad einsum Ropp mse_loss adam
              optimizer_step clock model0 reader0 args_display_zero)
    as (Hraise & Hle & _).
  - cbn. lra.
  - cbn. lra.
  - reflexivity.
  - cbn. lia.
  - cbn. discriminate.
  - reflexivity.
  - apply reader0_ok.
  - apply reader0_ok.
  - apply reader0_ok.
  - split; [exact Hraise | exact Hle].
Defined.

(** Two epochs over one batch. *)
Lemma train_step_counts_witness :
  count_events is_optimizer_step
               (log (snd (TrainExample.train model0 reader0 args2)))
  = (Z.to_nat (n_epoch args2) * List.length (batches reader0))%nat /\
  count_events is_scheduler_step
               (log (snd (TrainExample.train model0 reader0 args2)))
  = Z.to_nat (n_epoch args2) /\
  last_epoch (snd (TrainExample.train model0 reader0 args2))
  = Z.max 0 (n_epoch args2).
Proof.
  apply (train_step_counts
           R R unit forward autograd_grad einsum Ropp mse_loss adam
           optimizer_step clock model0 reader0 args2).
  exact train_args2_completes.
Defined.

(** Two epochs with a decay period of a hundred: no decay. *)
Lemma train_final_learning_rate_witness :
  lr (snd (TrainExample.train model0 reader0 args2)) =
  start_lr args2 *
  decay_rate args2 ^ Z.to_nat (Z.max 0 (n_epoch args2) / decay_steps args2).
Proof.
  apply (train_final_learning_rate
           R R unit forward autograd_grad einsum Ropp mse_loss adam
           optimizer_step clock model0 reader0 args2).
  - exact train_args2_completes.
  - reflexivity.
  - cbn. lia.
Defined.

(** The rows of the two-epoch run. *)
Lemma train_rows_show_scheduled_rate_witness :
  Forall (row_lr_ok (start_lr args2) (decay_rate args2) (decay_steps args2))
         (log (snd (TrainExample.train model0 reader0 args2))).
Proof.
  apply (train_rows_show_scheduled_rate
           R R unit forward autograd_grad einsum Ropp mse_loss adam
           optimizer_step clock model0 reader0 args2 (decay_rate args2)).
  - reflexivity.
  - cbn. lia.
Defined.

(** The first row of the two-epoch run, which has no test reader. *)
Lemma train_first_row_same_errors_witness :
  Forall first_row_same
         (log (snd (TrainExample.train model0 reader0 args2))).
Proof.
  apply (train_first_row_same_errors
           R R unit forward autograd_grad einsum Ropp mse_loss adam
           optimizer_step clock model0 reader0 args2).
  reflexivity.
Defined.

(** The two-epoch run ends by saving its model. *)
Lemma train_last_checkpoint_is_final_model_witness :
  exists earlier,
    log (snd (TrainExample.train model0 reader0 args2)) =
    earlier ++
    [(n_epoch args2,
      SaveModel (ckpt_file args2)
                (net (snd (TrainExample.train model0 reader0 args2))))].
Proof.
  apply (train_last_checkpoint_is_final_model
           R R unit forward autograd_grad einsum Ropp mse_loss adam
           optimizer_step clock model0 reader0 args2).
  - exact train_args2_completes.
  - cbn. lia.
  - exists 2%Z. reflexivity.
  - cbn. discriminate.
Defined.

(** Force matching on a reader without force data. *)
Lemma train_rejects_malformed_batches_witness :
  fst (TrainExample.train model0 reader0 args_force) = Raise ValueError.
Proof.
  unfold TrainExample.train.
  rewrite (train_rejects_malformed_batches
             R R unit forward autograd_grad einsum Ropp mse_loss adam
             optimizer_step clock model0 reader0 args_force
             ltac:(cbn; lra) ltac:(cbn; lra) eq_refl).
  - reflexivity.
  - cbn [args_force force_factor reader0 sample_all_batch forallb].
    unfold sample_ok. rewrite positive_true by lra. reflexivity.
Defined.

(** A weight decay of -0.01. *)
Lemma train_rejects_negative_rates_witness :
  fst (TrainExample.train model0 reader0 args_negative_decay)
  = Raise ValueError.
Proof.
  apply (train_rejects_negative_rates
           R R unit forward autograd_grad einsum Ropp mse_loss adam
           optimizer_step clock model0 reader0 args_negative_decay).
  right. cbn. lra.
Defined.

End TrainerMoreRuns.
